(** * prox-cli: the authenticated API-session client of [pyproxmox.py]

    A shallow embedding of [prox/libs/proxmox/pyproxmox.py]: the session
    establisher [prox_auth.__init__], the request dispatcher
    [pyproxmox.connect] and the endpoint wrappers built on it.

    Python objects are records, a missing attribute is [None] in an
    [option] field, dictionaries are [gmap]s, and a method is a computation
    in a state-and-exception monad.  The outside world is the log of the
    calls made to the [requests] library together with the lines printed
    on standard output.  What is not code of this repository is a section
    variable: the remote server, the JSON decoder behind [Response.json()]
    and the interpreter's [repr] of containers. *)

From stdpp Require Import gmap strings list fin_maps pretty.

Local Open Scope string_scope.
Local Open Scope list_scope.
Local Open Scope Z_scope.

Set Warnings "-register-all".

(** ** Python values *)

(** What [json.loads] can produce.  [JNull] is Python's [None], [JObj] a
    [dict] with string keys.  Floats are left out. *)
Inductive json : Type :=
| JNull
| JBool (b : bool)
| JNum (n : Z)
| JStr (s : string)
| JArr (l : list json)
| JObj (d : gmap string json).

(** The exceptions that the modelled code can meet. *)
Inductive exn : Type :=
| RequestException              (* any transport failure inside [requests] *)
| JSONDecodeError               (* [Response.json()] on a body that is not JSON *)
| KeyError (key : string)       (* [d[key]] on a dict without [key] *)
| TypeError                     (* subscripting a value that is not a dict *)
| AttributeError (attr : string)(* reading an attribute that was never set *)
| SystemExit                    (* raised by [exit()] *)
| KeyboardInterrupt             (* the user interrupts the program *)
| GeneratorExit.                (* a generator is closed *)

(** [isinstance(e, Exception)]: the last three derive from
    [BaseException] only, and [except Exception] lets them through. *)
Definition is_Exception (e : exn) : bool :=
  match e with
  | SystemExit | KeyboardInterrupt | GeneratorExit => false
  | _ => true
  end.

Inductive outcome (A : Type) : Type :=
| Returned (a : A)
| Raised (e : exn).
Arguments Returned {A} a.
Arguments Raised {A} e.

(** ** The state-and-exception monad *)

Definition M (S A : Type) : Type := S -> outcome A * S.

Definition ret {S A} (a : A) : M S A := fun s => (Returned a, s).

Definition raise {S A} (e : exn) : M S A := fun s => (Raised e, s).

Definition bind {S A B} (m : M S A) (k : A -> M S B) : M S B :=
  fun s =>
    match m s with
    | (Returned a, s') => k a s'
    | (Raised e, s') => (Raised e, s')
    end.

(** [try: body / except: handler] with a bare [except], which catches
    everything; the state changes made by [body] before it raised stay. *)
Definition try_except {S A} (body : M S A) (handler : M S A) : M S A :=
  fun s =>
    match body s with
    | (Returned a, s') => (Returned a, s')
    | (Raised _, s') => handler s'
    end.

Definition gets {S A} (f : S -> A) : M S A := fun s => (Returned (f s), s).

Definition modify {S} (f : S -> S) : M S unit := fun s => (Returned tt, f s).

Definition of_outcome {S A} (o : outcome A) : M S A := fun s => (o, s).

Notation "x <~ c ;; k" := (bind c (fun x => k))
  (at level 65, c at next level, right associativity).
Notation "c ;;; k" := (bind c (fun _ => k))
  (at level 65, right associativity).

(** ** The [requests] library, as the code sees it *)

Inductive http_method : Type := GET | POST | PUT | DELETE.

(** One call [requests.<method>(url, verify=, data=, cookies=, headers=)];
    a keyword that the call does not pass is [None]. *)
Record request : Type := {
  rq_method : http_method;
  rq_url : string;
  rq_verify : bool;
  rq_data : option (gmap string string);
  rq_cookies : option (gmap string json);
  rq_headers : option (gmap string string)
}.

Record Response : Type := {
  status_code : Z;
  text : string
}.

(** [repr] of a [requests.Response], which is what [print] shows. *)
Definition Response_repr (r : Response) : string :=
  "<Response [" +:+ pretty (status_code r) +:+ "]>".

Record world : Type := {
  sent : list request;     (* the calls made to [requests], oldest first *)
  stdout : list string     (* the lines printed, oldest first *)
}.

Definition log_request (rq : request) (w : world) : world :=
  {| sent := sent w ++ [rq]; stdout := stdout w |}.

Definition print (line : string) : M world unit :=
  modify (fun w => {| sent := sent w; stdout := stdout w ++ [line] |}).

(** [d[k]] for a value that came out of the JSON decoder. *)
Definition getitem (v : json) (k : string) : outcome json :=
  match v with
  | JObj d =>
      match d !! k with
      | Some x => Returned x
      | None => Raised (KeyError k)
      end
  | _ => Raised TypeError
  end.

(** The header the dispatcher adds for the mutating verbs. *)
Definition csrf_header (rq : request) : option string :=
  match rq_headers rq with
  | Some h => h !! "CSRFPreventionToken"
  | None => None
  end.

Definition header (name : string) (rq : request) : option string :=
  match rq_headers rq with
  | Some h => h !! name
  | None => None
  end.

(** ** The two classes *)

(** An instance of [prox_auth] once [__init__] has run to its end. *)
Record prox_auth : Type := {
  auth_url : string;
  auth_connect_data : gmap string string;
  auth_full_url : string;
  auth_response : Response;
  auth_returned_data : json;
  auth_ticket : gmap string json;
  auth_CSRF : json
}.

(** An instance of [pyproxmox].  [full_url], [response] and
    [returned_data] do not exist until [connect] assigns them. *)
Record pyproxmox : Type := {
  url : string;
  ticket : gmap string json;
  CSRF : json;
  full_url : option string;
  response : option Response;
  returned_data : option json
}.

Definition set_full_url (v : string) (self : pyproxmox) : pyproxmox :=
  {| url := url self; ticket := ticket self; CSRF := CSRF self;
     full_url := Some v; response := response self;
     returned_data := returned_data self |}.

Definition set_response (v : Response) (self : pyproxmox) : pyproxmox :=
  {| url := url self; ticket := ticket self; CSRF := CSRF self;
     full_url := full_url self; response := Some v;
     returned_data := returned_data self |}.

Definition set_returned_data (v : json) (self : pyproxmox) : pyproxmox :=
  {| url := url self; ticket := ticket self; CSRF := CSRF self;
     full_url := full_url self; response := response self;
     returned_data := Some v |}.

(** A method of [pyproxmox] runs on the instance and the world. *)
Definition method (A : Type) : Type := M (pyproxmox * world) A.

Definition on_self (f : pyproxmox -> pyproxmox) : method unit :=
  modify (fun s => (f (fst s), snd s)).

Definition in_world {A} (m : M world A) : method A :=
  fun s => let (o, w) := m (snd s) in (o, (fst s, w)).

(** Reading [self.response]. *)
Definition get_response : method Response :=
  fun s =>
    match response (fst s) with
    | Some r => (Returned r, s)
    | None => (Raised (AttributeError "response"), s)
    end.

(** [pyproxmox.__init__]. *)
Definition pyproxmox_init (auth_class : prox_auth) : pyproxmox :=
  {| url := auth_url auth_class;
     ticket := auth_ticket auth_class;
     CSRF := auth_CSRF auth_class;
     full_url := None; response := None; returned_data := None |}.

(** ** The command-line layer: [get_auth] of [clusters_lib] and [network_lib] *)

Section CommandLine.

(** [login_lib.load_dumped_session], which the two libraries import. *)
Variable load_dumped_session : M world pyproxmox.

(** [str(e)], which [print(e)] shows. *)
Variable exn_str : exn -> string.

(** [try: load / except Exception as e: print(e); exit() / else: return]. *)
Definition get_auth : M world pyproxmox :=
  fun w =>
    match load_dumped_session w with
    | (Returned prox, w') => (Returned prox, w')
    | (Raised e, w') =>
        if is_Exception e
        then (print (exn_str e) ;;; raise SystemExit) w'
        else (Raised e, w')
    end.

End CommandLine.

(** ** Predicates used in the statements *)

(** The four values of [conn_type] that [connect] tests for. *)
Definition verbs : list string := ["get"; "post"; "put"; "delete"].

Definition mutating (conn_type : string) : bool :=
  String.eqb conn_type "post" || String.eqb conn_type "put"
  || String.eqb conn_type "delete".

Definition is_slash (a : Ascii.ascii) : bool :=
  Ascii.eqb a (Ascii.ascii_of_nat 47).

Definition starts_with_slash (s : string) : bool :=
  match s with
  | String a _ => is_slash a
  | EmptyString => false
  end.

(** Does [s] contain two slashes in a row? *)
Fixpoint has_double_slash (s : string) : bool :=
  match s with
  | String a t => (is_slash a && starts_with_slash t) || has_double_slash t
  | EmptyString => false
  end.

(** ** A mock server for the examples *)

Module Mock.

Definition dq : string := String (Ascii.ascii_of_nat 34) EmptyString.

Definition quoted (s : string) : string := dq +:+ s +:+ dq.

(** The authentication response of the specification's scenario. *)
Definition auth_body : string :=
  "{" +:+ quoted "data" +:+ ": {" +:+ quoted "ticket" +:+ ": "
  +:+ quoted "T1" +:+ ", " +:+ quoted "CSRFPreventionToken" +:+ ": "
  +:+ quoted "C1" +:+ "}}".

Definition auth_json : json :=
  JObj {[ "data" :=
    JObj {[ "ticket" := JStr "T1"; "CSRFPreventionToken" := JStr "C1" ]} ]}.

(** A response that decodes but has no ticket in it. *)
Definition denied_body : string := "{" +:+ quoted "data" +:+ ": null}".

Definition denied_json : json := JObj {[ "data" := JNull ]}.

(** A response with a ticket and no token. *)
Definition incomplete_body : string :=
  "{" +:+ quoted "data" +:+ ": {" +:+ quoted "ticket" +:+ ": "
  +:+ quoted "T1" +:+ "}}".

Definition incomplete_json : json :=
  JObj {[ "data" := JObj {[ "ticket" := JStr "T1" ]} ]}.

Definition empty_body : string := "{}".

Definition status_body : string :=
  "{" +:+ quoted "data" +:+ ": [{" +:+ quoted "name" +:+ ": "
  +:+ quoted "pve" +:+ ", " +:+ quoted "nodes" +:+ ": 1}]}".

Definition status_json : json :=
  JObj {[ "data" := JArr [JObj {[ "name" := JStr "pve"; "nodes" := JNum 1 ]}] ]}.

Definition gateway_body : string := "<html>502 Bad Gateway</html>".

(** The decoder, on the bodies that the mock servers produce. *)
Definition json_loads (s : string) : option json :=
  if String.eqb s auth_body then Some auth_json
  else if String.eqb s denied_body then Some denied_json
  else if String.eqb s incomplete_body then Some incomplete_json
  else if String.eqb s empty_body then Some (JObj ∅)
  else if String.eqb s status_body then Some status_json
  else None.

(** Lists and dicts do not reach [str] in the examples. *)
Definition container_repr (v : json) : string := "<container>".

(** A healthy node [host]; every other host is unreachable. *)
Definition server (history : list request) (rq : request) : option Response :=
  if String.eqb (rq_url rq) "https://host:8006/api2/json/access/ticket"
  then Some {| status_code := 200; text := auth_body |}
  else if String.eqb (rq_url rq) "https://host:8006/api2/json/cluster/status"
  then Some {| status_code := 200; text := status_body |}
  else if String.prefix "https://host:8006/api2/json/" (rq_url rq)
  then Some {| status_code := 200; text := empty_body |}
  else None.

(** A proxy in front of a dead node: every call gets an HTML error page. *)
Definition gateway (history : list request) (rq : request) : option Response :=
  Some {| status_code := 502; text := gateway_body |}.

(** A node that rejects the password. *)
Definition denying (history : list request) (rq : request) : option Response :=
  Some {| status_code := 401; text := denied_body |}.

(** A node whose answer to the login has no token in it. *)
Definition incomplete (history : list request) (rq : request) : option Response :=
  Some {| status_code := 200; text := incomplete_body |}.

(** No node at all: every call fails in the transport. *)
Definition down (history : list request) (rq : request) : option Response :=
  None.

(** A node that answers every call with status 200 and [body]. *)
Definition answering (body : string) (history : list request) (rq : request)
  : option Response :=
  Some {| status_code := 200; text := body |}.

(** A session dump that loads, and one that does not. *)
Definition load_ok (prox : pyproxmox) : M world pyproxmox := ret prox.

Definition load_fails : M world pyproxmox := raise (KeyError "PVEAuthCookie").

(** The user interrupts the loading. *)
Definition load_interrupted : M world pyproxmox := raise KeyboardInterrupt.

(** [str] of an exception: for a [KeyError] the [repr] of its key, which
    for a key without quotes or escapes is the key between single quotes.
    No other exception reaches [print] in the examples. *)
Definition exn_str (e : exn) : string :=
  match e with
  | KeyError key => "'" +:+ key +:+ "'"
  | _ => "<exception>"
  end.

Definition fresh : world := {| sent := []; stdout := [] |}.

(** The session of the specification's scenario, as [prox_auth] builds
    it against [server]. *)
Definition auth : prox_auth :=
  {| auth_url := "host";
     auth_connect_data := {[ "username" := "root@pam"; "password" := "secret" ]};
     auth_full_url := "https://host:8006/api2/json/access/ticket";
     auth_response := {| status_code := 200; text := auth_body |};
     auth_returned_data := auth_json;
     auth_ticket := {[ "PVEAuthCookie" := JStr "T1" ]};
     auth_CSRF := JStr "C1" |}.

(** The dispatcher built from it. *)
Definition session : pyproxmox :=
  {| url := "host"; ticket := {[ "PVEAuthCookie" := JStr "T1" ]};
     CSRF := JStr "C1"; full_url := None; response := None;
     returned_data := None |}.

End Mock.

Definition calls_of (rq : option request) : list request :=
  match rq with Some r => [r] | None => [] end.

(** The world after some more lines were printed. *)
Definition printed (lines : list string) (w : world) : world :=
  {| sent := sent w; stdout := stdout w ++ lines |}.

(** The one call that [prox_auth.__init__] makes. *)
Definition ticket_request (url username password : string) : request :=
  {| rq_method := POST;
     rq_url := "https://" +:+ url +:+ ":8006/api2/json/access/ticket";
     rq_verify := false;
     rq_data := Some {[ "username" := username; "password" := password ]};
     rq_cookies := None; rq_headers := None |}.

(** The call that a wrapper using get makes on [prox] for [path]. *)
Definition get_request (prox : pyproxmox) (path : string) : request :=
  {| rq_method := GET;
     rq_url := "https://" +:+ url prox +:+ ":8006/api2/json/" +:+ path;
     rq_verify := false; rq_data := None;
     rq_cookies := Some (ticket prox); rq_headers := None |}.

(** A server that answers as [srv] does, with every status code replaced
    by [code]. *)
Definition with_status (code : Z)
    (srv : list request -> request -> option Response)
    (history : list request) (rq : request) : option Response :=
  match srv history rq with
  | Some r => Some {| status_code := code; text := text r |}
  | None => None
  end.

(** ** The client *)

Section Client.

(** The remote end: what the transport answers to a call, given the
    calls made before it; [None] is a transport failure. *)
Variable server : list request -> request -> option Response.

(** The decoder behind [Response.json()]; [None] when the body is not
    valid JSON. *)
Variable json_loads : string -> option json.

(** The interpreter's [repr] of a list or a dict. *)
Variable container_repr : json -> string.

(** [str(v)]. *)
Definition py_str (v : json) : string :=
  match v with
  | JStr s => s
  | JNum n => pretty n
  | JBool true => "True"
  | JBool false => "False"
  | JNull => "None"
  | JArr _ | JObj _ => container_repr v
  end.

(** The call reaches the library, is logged, and is answered or fails. *)
Definition requests_call (rq : request) : M world Response :=
  fun w =>
    match server (sent w) rq with
    | Some r => (Returned r, log_request rq w)
    | None => (Raised RequestException, log_request rq w)
    end.

(** [response.json()]. *)
Definition Response_json (r : Response) : outcome json :=
  match json_loads (text r) with
  | Some v => Returned v
  | None => Raised JSONDecodeError
  end.

(** [prox_auth.__init__(url, username, password)]. *)
Definition prox_auth_init (url username password : string)
  : M world prox_auth :=
  let connect_data : gmap string string :=
    {[ "username" := username; "password" := password ]} in
  let full_url := "https://" +:+ url +:+ ":8006/api2/json/access/ticket" in
  response <~ requests_call
    {| rq_method := POST; rq_url := full_url; rq_verify := false;
       rq_data := Some connect_data; rq_cookies := None;
       rq_headers := None |} ;;
  returned_data <~ of_outcome (Response_json response) ;;
  data <~ of_outcome (getitem returned_data "data") ;;
  t <~ of_outcome (getitem data "ticket") ;;
  let ticket : gmap string json := {[ "PVEAuthCookie" := t ]} in
  data' <~ of_outcome (getitem returned_data "data") ;;
  csrf <~ of_outcome (getitem data' "CSRFPreventionToken") ;;
  ret {| auth_url := url; auth_connect_data := connect_data;
         auth_full_url := full_url; auth_response := response;
         auth_returned_data := returned_data; auth_ticket := ticket;
         auth_CSRF := csrf |}.

(** The three mutating branches of [connect] differ only in the
    function of [requests] they call. *)
Definition send_mutating (m : http_method) (self : pyproxmox)
    (full_url : string) (httpheaders : gmap string string)
    (post_data : option (gmap string string)) : method unit :=
  let httpheaders :=
    <[ "CSRFPreventionToken" := py_str (CSRF self) ]> httpheaders in
  r <~ in_world (requests_call
    {| rq_method := m; rq_url := full_url; rq_verify := false;
       rq_data := post_data; rq_cookies := Some (ticket self);
       rq_headers := Some httpheaders |}) ;;
  on_self (set_response r).

(** The [try]/[except] block that ends [connect].  The bare [except]
    also catches the failure to read [self.response]; its handler then
    reads the attribute again, outside any [try]. *)
Definition decode_response : method json :=
  try_except
    (r <~ get_response ;;
     v <~ of_outcome (Response_json r) ;;
     on_self (set_returned_data v) ;;;
     ret v)
    (in_world (print "Error in trying to process JSON") ;;;
     r <~ get_response ;;
     in_world (print (Response_repr r)) ;;;
     ret JNull).

(** [pyproxmox.connect(conn_type, option, post_data)]. *)
Definition connect (conn_type option : string)
    (post_data : Datatypes.option (gmap string string)) : method json :=
  self <~ gets fst ;;
  let full_url := "https://" +:+ url self +:+ ":8006/api2/json/" +:+ option in
  on_self (set_full_url full_url) ;;;
  let httpheaders : gmap string string :=
    {[ "Accept" := "application/json";
       "Content-Type" := "application/x-www-form-urlencoded" ]} in
  (if String.eqb conn_type "post" then
     send_mutating POST self full_url httpheaders post_data
   else if String.eqb conn_type "put" then
     send_mutating PUT self full_url httpheaders post_data
   else if String.eqb conn_type "delete" then
     send_mutating DELETE self full_url httpheaders post_data
   else if String.eqb conn_type "get" then
     r <~ in_world (requests_call
       {| rq_method := GET; rq_url := full_url; rq_verify := false;
          rq_data := None; rq_cookies := Some (ticket self);
          rq_headers := None |}) ;;
     on_self (set_response r)
   else ret tt) ;;;
  decode_response.

(** *** Endpoint wrappers *)

Definition getClusterStatus : method json :=
  connect "get" "cluster/status" None.

Definition migrateOpenvzContainer (node vmid target : json) : method json :=
  let post_data : gmap string string := {[ "target" := py_str target ]} in
  connect "post"
    ("nodes/" +:+ py_str node +:+ "/openvz/" +:+ py_str vmid +:+ "/migrate")
    (Some post_data).

Definition startVirtualMachine (node vmid : json) : method json :=
  connect "post"
    ("nodes/" +:+ py_str node +:+ "/qemu/" +:+ py_str vmid +:+ "/status/start")
    None.

Definition migrateVirtualMachine (node vmid target : json) : method json :=
  let post_data : gmap string string := {[ "target" := py_str target ]} in
  connect "post"
    ("nodes/" +:+ py_str node +:+ "/qemu/" +:+ py_str vmid +:+ "/status/start")
    (Some post_data).

(** The other wrappers that the properties below are about.  Each is
    one call of [connect]; [%s] formats its argument with [str]. *)

Definition getVm : method json :=
  connect "get" "nodes/pve/qemu" None.

Definition getNodeNetworks (node : json) : method json :=
  connect "get" ("nodes/" +:+ py_str node +:+ "/network") None.

Definition getNodeInterface (node interface : json) : method json :=
  connect "get"
    ("nodes/" +:+ py_str node +:+ "/network/" +:+ py_str interface) None.

Definition getNodeVirtualIndex (node : json) : method json :=
  connect "get" ("nodes/" +:+ py_str node +:+ "/qemu") None.

Definition getNodeServiceList (node : json) : method json :=
  connect "get" ("nodes/" +:+ py_str node +:+ "/services") None.

Definition getVirtualIndex (node vmid : json) : method json :=
  connect "get" ("nodes/" +:+ py_str node +:+ "/qemu/" +:+ py_str vmid) None.

Definition getVirtualStatus (node vmid : json) : method json :=
  connect "get"
    ("nodes/" +:+ py_str node +:+ "/qemu/" +:+ py_str vmid
     +:+ "/status/current") None.

Definition getVirtualInfo (node vmid action : json) : method json :=
  connect "get"
    ("nodes/" +:+ py_str node +:+ "/qemu/" +:+ py_str vmid +:+ "/"
     +:+ py_str action) None.

Definition getVirtualConfig (node vmid : json) : method json :=
  connect "get"
    ("nodes/" +:+ py_str node +:+ "/qemu/" +:+ py_str vmid +:+ "/config") None.

Definition getVirtualRRD (node vmid : json) : method json :=
  connect "get"
    ("nodes/" +:+ py_str node +:+ "/qemu/" +:+ py_str vmid +:+ "/rrd") None.

Definition getVirtualRRDData (node vmid : json) : method json :=
  connect "get"
    ("nodes/" +:+ py_str node +:+ "/qemu/" +:+ py_str vmid +:+ "/rrddata") None.

Definition createVirtualMachine (node : json)
    (post_data : option (gmap string string)) : method json :=
  connect "post" ("nodes/" +:+ py_str node +:+ "/qemu") post_data.

Definition rollbackVirtualMachine (node vmid snapname : json) : method json :=
  connect "post"
    ("nodes/" +:+ py_str node +:+ "/qemu/" +:+ py_str vmid +:+ "/snapshot/"
     +:+ py_str snapname +:+ "/rollback") None.

Definition getSnapshotConfigVirtualMachine (node vmid snapname : json)
  : method json :=
  connect "get"
    ("nodes/" +:+ py_str node +:+ "/qemu/" +:+ py_str vmid +:+ "/snapshot/"
     +:+ py_str snapname +:+ "/config") None.

Definition deleteNodeInterface (node interface : json) : method json :=
  connect "delete"
    ("nodes/" +:+ py_str node +:+ "/network/" +:+ py_str interface) None.

Definition deleteVirtualMachine (node vmid : json) : method json :=
  connect "delete"
    ("nodes/" +:+ py_str node +:+ "/qemu/" +:+ py_str vmid) None.

Definition setNodeDNSDomain (node domain : json) : method json :=
  let post_data : gmap string string := {[ "search" := py_str domain ]} in
  connect "put" ("nodes/" +:+ py_str node +:+ "/dns") (Some post_data).

Definition setNodeSubscriptionKey (node key : json) : method json :=
  let post_data : gmap string string := {[ "key" := py_str key ]} in
  connect "put" ("nodes/" +:+ py_str node +:+ "/subscription") (Some post_data).

Definition setVirtualMachineOptions (node vmid : json)
    (post_data : option (gmap string string)) : method json :=
  connect "put"
    ("nodes/" +:+ py_str node +:+ "/qemu/" +:+ py_str vmid +:+ "/config")
    post_data.

Definition sendKeyEventVirtualMachine (node vmid key : json) : method json :=
  let post_data : gmap string string := {[ "key" := py_str key ]} in
  connect "put"
    ("nodes/" +:+ py_str node +:+ "/qemu/" +:+ py_str vmid +:+ "/sendkey")
    (Some post_data).

(** *** The functions of [clusters_lib] and [network_lib]

    Each loads the session with [get_auth], calls one wrapper on it and
    drops the dispatcher when it returns. *)

(** [login_lib.load_dumped_session] and [str] of an exception, as for
    [get_auth]. *)
Variable load_dumped_session : M world pyproxmox.
Variable exn_str : exn -> string.

(** [prox.m(...)] on a dispatcher that lives for this one call. *)
Definition call_on {A} (prox : pyproxmox) (m : method A) : M world A :=
  fun w => let (o, s) := m (prox, w) in (o, snd s).

(** [clusters_lib.list_cluster]. *)
Definition list_cluster : M world json :=
  prox <~ get_auth load_dumped_session exn_str ;;
  cl_list <~ call_on prox getClusterStatus ;;
  ret cl_list.

(** [clusters_lib.cluster_service]. *)
Definition cluster_service (node : json) : M world json :=
  prox <~ get_auth load_dumped_session exn_str ;;
  node_service <~ call_on prox (getNodeServiceList node) ;;
  of_outcome (getitem node_service "data").

(** [network_lib.get_interface]. *)
Definition get_interface (node : json) : M world json :=
  prox <~ get_auth load_dumped_session exn_str ;;
  network <~ call_on prox (getNodeNetworks node) ;;
  of_outcome (getitem network "data").

(** [network_lib.get_interface_details]. *)
Definition get_interface_details (node interface : json) : M world json :=
  prox <~ get_auth load_dumped_session exn_str ;;
  network <~ call_on prox (getNodeInterface node interface) ;;
  of_outcome (getitem network "data").

(** *** A caller issuing several calls through one instance *)

Record call : Type := {
  call_verb : string;
  call_path : string;
  call_body : option (gmap string string)
}.

(** The caller goes on to the next call whatever the previous one did. *)
Fixpoint run_calls (cs : list call) (s : pyproxmox * world)
  : pyproxmox * world :=
  match cs with
  | [] => s
  | c :: cs' =>
      run_calls cs' (snd (connect (call_verb c) (call_path c) (call_body c) s))
  end.

(** The calls to [requests] that [c] makes when it is the first call on
    a dispatcher in state [self]. *)
Definition issued (c : call) (self : pyproxmox) : list request :=
  sent (snd (snd (connect (call_verb c) (call_path c) (call_body c)
                    (self, {| sent := []; stdout := [] |})))).

(** *** The dispatcher, read as a table

    Used in the proofs only: which function of [requests] a verb
    selects, and the call that results. *)

Definition verb_method (conn_type : string) : Datatypes.option http_method :=
  if String.eqb conn_type "post" then Some POST
  else if String.eqb conn_type "put" then Some PUT
  else if String.eqb conn_type "delete" then Some DELETE
  else if String.eqb conn_type "get" then Some GET
  else None.

Definition wire (self : pyproxmox) (conn_type option : string)
    (post_data : Datatypes.option (gmap string string))
  : Datatypes.option request :=
  let full_url := "https://" +:+ url self +:+ ":8006/api2/json/" +:+ option in
  match verb_method conn_type with
  | Some GET =>
      Some {| rq_method := GET; rq_url := full_url; rq_verify := false;
              rq_data := None; rq_cookies := Some (ticket self);
              rq_headers := None |}
  | Some m =>
      Some {| rq_method := m; rq_url := full_url; rq_verify := false;
              rq_data := post_data; rq_cookies := Some (ticket self);
              rq_headers := Some
                {[ "CSRFPreventionToken" := py_str (CSRF self);
                   "Accept" := "application/json";
                   "Content-Type" := "application/x-www-form-urlencoded" ]} |}
  | None => None
  end.

(** The call that a wrapper using post, put or delete makes on [self]
    for [path] with the form [data]. *)
Definition csrf_request (m : http_method) (self : pyproxmox) (path : string)
    (data : Datatypes.option (gmap string string)) : request :=
  {| rq_method := m;
     rq_url := "https://" +:+ url self +:+ ":8006/api2/json/" +:+ path;
     rq_verify := false; rq_data := data;
     rq_cookies := Some (ticket self);
     rq_headers := Some
       {[ "CSRFPreventionToken" := py_str (CSRF self);
          "Accept" := "application/json";
          "Content-Type" := "application/x-www-form-urlencoded" ]} |}.

(** * Properties *)

(** ** The dispatcher step by step *)

Lemma decode_response_eq (s : pyproxmox * world) :
  decode_response s =
  match response (fst s) with
  | None =>
      (Raised (AttributeError "response"),
       (fst s, printed ["Error in trying to process JSON"] (snd s)))
  | Some r =>
      match json_loads (text r) with
      | Some v => (Returned v, (set_returned_data v (fst s), snd s))
      | None =>
          (Returned JNull,
           (fst s, printed ["Error in trying to process JSON";
                            Response_repr r] (snd s)))
      end
  end.
Proof.
  destruct s as [self w].
  unfold decode_response, try_except, bind, get_response,
    of_outcome, Response_json, on_self, in_world, print, modify, ret, printed.
  simpl. destruct (response self) as [r|] eqn:E; simpl; rewrite ?E;
    [|reflexivity].
  destruct (json_loads (text r)); simpl; rewrite ?E; [reflexivity|].
  unfold printed; simpl. by rewrite <- app_assoc.
Qed.

Lemma connect_eq (c o : string) (p : option (gmap string string))
    (self : pyproxmox) (w : world) :
  connect c o p (self, w) =
  let self1 :=
    set_full_url ("https://" +:+ url self +:+ ":8006/api2/json/" +:+ o) self in
  match wire self c o p with
  | None => decode_response (self1, w)
  | Some rq =>
      match server (sent w) rq with
      | Some r => decode_response (set_response r self1, log_request rq w)
      | None => (Raised RequestException, (self1, log_request rq w))
      end
  end.
Proof.
  unfold connect, wire, verb_method, send_mutating.
  destruct (String.eqb c "post");
    [|destruct (String.eqb c "put");
      [|destruct (String.eqb c "delete");
        [|destruct (String.eqb c "get")]]];
    unfold bind, gets, on_self, modify, in_world, requests_call, ret; simpl;
    try reflexivity;
    match goal with |- context [server ?h ?rq] => destruct (server h rq) end;
    reflexivity.
Qed.

Local Ltac by_member :=
  split; [discriminate | intros H; destruct H; simpl; auto 6].

(** The table has an entry for the four verbs and for nothing else. *)
Lemma verb_method_None (c : string) :
  verb_method c = None <-> ~ In c verbs.
Proof.
  unfold verb_method, verbs.
  destruct (String.eqb_spec c "post") as [->|]; [by_member|].
  destruct (String.eqb_spec c "put") as [->|]; [by_member|].
  destruct (String.eqb_spec c "delete") as [->|]; [by_member|].
  destruct (String.eqb_spec c "get") as [->|]; [by_member|].
  simpl.
  split; [intros _ H; intuition congruence | reflexivity].
Qed.

Lemma wire_None (self : pyproxmox) (c o : string)
    (p : option (gmap string string)) :
  wire self c o p = None <-> ~ In c verbs.
Proof.
  rewrite <- verb_method_None. unfold wire.
  destruct (verb_method c) as [[]|]; split; congruence.
Qed.

(** The call depends on the instance through its credentials only. *)
Lemma wire_credentials (self self' : pyproxmox) (c o : string)
    (p : option (gmap string string)) :
  url self' = url self -> ticket self' = ticket self ->
  CSRF self' = CSRF self ->
  wire self' c o p = wire self c o p.
Proof. unfold wire. intros -> -> ->. reflexivity. Qed.

(** What one call of [connect] adds to the log. *)
Lemma connect_sent (c o : string) (p : option (gmap string string))
    (self : pyproxmox) (w : world) :
  sent (snd (snd (connect c o p (self, w)))) =
  sent w ++ calls_of (wire self c o p).
Proof.
  rewrite connect_eq. cbv zeta.
  destruct (wire self c o p) as [rq|]; simpl;
    [destruct (server (sent w) rq); [|reflexivity]|];
    rewrite decode_response_eq; simpl;
    repeat case_match; simpl; auto using app_nil_r.
Qed.

(** [connect] assigns [full_url], [response] and [returned_data] and
    no other attribute. *)
Lemma connect_credentials (c o : string) (p : option (gmap string string))
    (s : pyproxmox * world) :
  let self' := fst (snd (connect c o p s)) in
  url self' = url (fst s) /\ ticket self' = ticket (fst s)
  /\ CSRF self' = CSRF (fst s).
Proof.
  destruct s as [self w]. rewrite connect_eq. cbv zeta.
  destruct (wire self c o p) as [rq|]; simpl;
    [destruct (server (sent w) rq); [|simpl; auto]|];
    rewrite decode_response_eq; simpl;
    repeat case_match; simpl; auto.
Qed.

Lemma issued_eq (c : call) (self : pyproxmox) :
  issued c self =
  calls_of (wire self (call_verb c) (call_path c) (call_body c)).
Proof. unfold issued. rewrite connect_sent. reflexivity. Qed.

Lemma run_calls_invariant (cs : list call) (s : pyproxmox * world) :
  let s' := run_calls cs s in
  (url (fst s') = url (fst s) /\ ticket (fst s') = ticket (fst s)
   /\ CSRF (fst s') = CSRF (fst s))
  /\ sent (snd s') = sent (snd s) ++ flat_map (fun c => issued c (fst s)) cs.
Proof.
  revert s. induction cs as [|c cs IH]; intros s; simpl.
  - rewrite app_nil_r. auto.
  - pose proof (connect_credentials (call_verb c) (call_path c)
                  (call_body c) s) as (Hu & Ht & Hc).
    destruct (IH (snd (connect (call_verb c) (call_path c) (call_body c) s)))
      as ((Hu' & Ht' & Hc') & Hs).
    split; [repeat split; congruence|].
    rewrite Hs. destruct s as [self w]. rewrite connect_sent.
    rewrite <- app_assoc, <- issued_eq. simpl. do 2 f_equal.
    apply flat_map_ext. intros c'. rewrite !issued_eq.
    f_equal. by apply wire_credentials.
Qed.

(** For a verb of the table the call is there, with the cookie. *)
Lemma wire_verbs (self : pyproxmox) (c o : string)
    (p : option (gmap string string)) :
  In c verbs ->
  exists rq, wire self c o p = Some rq
    /\ rq_url rq = "https://" +:+ url self +:+ ":8006/api2/json/" +:+ o
    /\ rq_cookies rq = Some (ticket self)
    /\ csrf_header rq =
         (if mutating c then Some (py_str (CSRF self)) else None).
Proof.
  unfold verbs. simpl.
  intros [<-|[<-|[<-|[<-|[]]]]]; eexists; (split; [reflexivity|]);
    repeat split.
Qed.

(** ** Strings: where two slashes in a row can come from *)

Lemma starts_with_slash_app (s t : string) :
  starts_with_slash (s +:+ t) =
  match s with
  | EmptyString => starts_with_slash t
  | String _ _ => starts_with_slash s
  end.
Proof. destruct s; reflexivity. Qed.

Lemma has_double_slash_api (host option : string) :
  has_double_slash (host +:+ ":8006/api2/json/" +:+ option) =
  has_double_slash host || starts_with_slash option || has_double_slash option.
Proof.
  induction host as [|a host IH].
  - reflexivity.
  - change (String a host +:+ ":8006/api2/json/" +:+ option)
      with (String a (host +:+ ":8006/api2/json/" +:+ option)).
    cbn [has_double_slash]. rewrite IH, starts_with_slash_app.
    destruct host; simpl; rewrite ?andb_false_r, ?orb_assoc; reflexivity.
Qed.

(** ** The claims about the dispatcher *)

(** C1.  On a dispatcher built from a session [a], after any calls [cs],
    a request for one of the four verbs goes out with the session's
    ticket as its cookies; it carries the [CSRFPreventionToken] header
    exactly when the verb is post, put or delete, and the header is then
    [str] of the session's token: the token itself when it is a string. *)
Theorem csrf_header_iff_mutating (a : prox_auth) (cs : list call)
    (w0 : world) (c o : string) (p : option (gmap string string)) :
  In c verbs ->
  let s := run_calls cs (pyproxmox_init a, w0) in
  exists rq,
    sent (snd (snd (connect c o p s))) = sent (snd s) ++ [rq]
    /\ rq_cookies rq = Some (auth_ticket a)
    /\ csrf_header rq =
         (if mutating c then Some (py_str (auth_CSRF a)) else None)
    /\ (forall tok, auth_CSRF a = JStr tok -> mutating c = true ->
        csrf_header rq = Some tok).
Proof.
  intros Hc s.
  destruct (run_calls_invariant cs (pyproxmox_init a, w0))
    as ((_ & Ht & Hk) & _).
  fold s in Ht, Hk. simpl in Ht, Hk.
  destruct s as [self w] eqn:Hs. simpl in *.
  destruct (wire_verbs self c o p Hc) as (rq & Hw & _ & Hcookie & Hcsrf).
  exists rq. rewrite connect_sent, Hw, Hcookie, Hcsrf, Ht, Hk.
  repeat split. intros tok -> ->. reflexivity.
Qed.

(** C2.  For each of the four verbs the request goes to the address
    [https://{host}:8006/api2/json/{path}], character for character, and
    that address is what [self.full_url] holds afterwards.  After the
    scheme, the address has two slashes in a row only where the host or
    the path has them or where the path starts with one. *)
Theorem url_exact (self : pyproxmox) (w : world) (c o : string)
    (p : option (gmap string string)) :
  In c verbs ->
  let res := connect c o p (self, w) in
  exists rq,
    sent (snd (snd res)) = sent w ++ [rq]
    /\ rq_url rq = "https://" +:+ url self +:+ ":8006/api2/json/" +:+ o
    /\ full_url (fst (snd res)) = Some (rq_url rq)
    /\ has_double_slash (url self +:+ ":8006/api2/json/" +:+ o) =
       has_double_slash (url self) || starts_with_slash o
       || has_double_slash o.
Proof.
  intros Hc res.
  destruct (wire_verbs self c o p Hc) as (rq & Hw & Hurl & _).
  exists rq. subst res. rewrite connect_sent, Hw.
  repeat split; [exact Hurl| |apply has_double_slash_api].
  rewrite Hurl, connect_eq, Hw. cbv zeta.
  destruct (server (sent w) rq); [|reflexivity].
  rewrite decode_response_eq. simpl. repeat case_match; reflexivity.
Qed.

(** C6.  Whatever calls go through a dispatcher, its host, ticket and
    token stay what they were at construction, and the log grows by what
    each call would have sent as the first call: nothing, for a verb
    outside the table, or one request to the path of that call, with the
    original cookie and, if it has the CSRF header, the original token. *)
Theorem credentials_never_mutated (self : pyproxmox) (w : world)
    (cs : list call) :
  let s' := run_calls cs (self, w) in
  (url (fst s') = url self /\ ticket (fst s') = ticket self
   /\ CSRF (fst s') = CSRF self)
  /\ sent (snd s') = sent w ++ flat_map (fun c => issued c self) cs
  /\ forall c,
       issued c self = []
       \/ exists rq,
            issued c self = [rq]
            /\ rq_url rq =
                 "https://" +:+ url self +:+ ":8006/api2/json/" +:+ call_path c
            /\ rq_cookies rq = Some (ticket self)
            /\ (csrf_header rq = None
                \/ csrf_header rq = Some (py_str (CSRF self))).
Proof.
  intros s'. destruct (run_calls_invariant cs (self, w)) as (Hcred & Hsent).
  split; [exact Hcred|]. split; [exact Hsent|].
  intros c. rewrite issued_eq.
  destruct (decide (In (call_verb c) verbs)) as [Hin|Hout].
  - right.
    destruct (wire_verbs self (call_verb c) (call_path c) (call_body c) Hin)
      as (rq & -> & Hurl & Hcookie & Hcsrf).
    exists rq. repeat split; auto.
    rewrite Hcsrf. destruct (mutating (call_verb c)); auto.
  - left. by rewrite (proj2 (wire_None self _ _ _) Hout).
Qed.

(** C10.  With a verb outside the table [connect] sends nothing.  On an
    instance that has no [response] yet it raises [AttributeError]
    instead of returning; on one that has, it returns the decoded body of
    that earlier response, so that it repeats what an earlier completed
    call returned. *)
Theorem unknown_verb_replays (c o : string) (p : option (gmap string string))
    (self : pyproxmox) (w : world) :
  ~ In c verbs ->
  let res := connect c o p (self, w) in
  sent (snd (snd res)) = sent w
  /\ (response self = None -> fst res = Raised (AttributeError "response"))
  /\ (forall r v, response self = Some r -> json_loads (text r) = Some v ->
      fst res = Returned v)
  /\ (forall c0 o0 p0 s0 v,
      connect c0 o0 p0 s0 = (Returned v, (self, w)) -> fst res = Returned v).
Proof.
  intros Hc res. subst res. rewrite connect_sent.
  pose proof (proj2 (wire_None self c o p) Hc) as Hw.
  rewrite connect_eq, Hw, decode_response_eq. cbv zeta. simpl.
  split; [apply app_nil_r|]. split; [|split].
  - intros ->. reflexivity.
  - intros r v -> ->. reflexivity.
  - intros c0 o0 p0 [self0 w0] v. rewrite connect_eq. cbv zeta.
    destruct (wire self0 c0 o0 p0) as [rq|];
      [destruct (server (sent w0) rq); [|discriminate]|];
      rewrite decode_response_eq; simpl;
      repeat case_match; try discriminate; intros [= <- <- <-];
      simpl in *; simplify_eq; congruence.
Qed.

(** ** Session establishment *)

Lemma prox_auth_init_eq (url username password : string) (w : world) :
  prox_auth_init url username password w =
  let rq := ticket_request url username password in
  let w' := log_request rq w in
  match server (sent w) rq with
  | None => (Raised RequestException, w')
  | Some r =>
      match json_loads (text r) with
      | None => (Raised JSONDecodeError, w')
      | Some v =>
          match getitem v "data" with
          | Raised e => (Raised e, w')
          | Returned d =>
              match getitem d "ticket" with
              | Raised e => (Raised e, w')
              | Returned t =>
                  match getitem d "CSRFPreventionToken" with
                  | Raised e => (Raised e, w')
                  | Returned k =>
                      (Returned
                         {| auth_url := url;
                            auth_connect_data :=
                              {[ "username" := username;
                                 "password" := password ]};
                            auth_full_url := rq_url rq;
                            auth_response := r;
                            auth_returned_data := v;
                            auth_ticket := {[ "PVEAuthCookie" := t ]};
                            auth_CSRF := k |}, w')
                  end
              end
          end
      end
  end.
Proof.
  unfold prox_auth_init, ticket_request, bind, requests_call, of_outcome,
    Response_json, ret. cbv zeta. cbn [rq_url].
  destruct (server _ _) as [r|]; [|reflexivity].
  destruct (json_loads (text r)) as [v|]; [|reflexivity].
  destruct (getitem v "data") as [d|]; [|reflexivity].
  destruct (getitem d "ticket"); [|reflexivity].
  destruct (getitem d "CSRFPreventionToken"); reflexivity.
Qed.

(** C3.  Establishing a session makes one call, a POST of the username
    and password to the ticket address of the host.  When the answer
    decodes to an object whose [data] holds [ticket] T and
    [CSRFPreventionToken] C, the constructor returns, the cookie value is
    T and the token is C, also on the dispatcher built from it. *)
Theorem session_from_ticket_response (url username password : string)
    (w : world) (r : Response) (d dd : gmap string json) (T C : json) :
  let rq :=
    {| rq_method := POST;
       rq_url := "https://" +:+ url +:+ ":8006/api2/json/access/ticket";
       rq_verify := false;
       rq_data := Some {[ "username" := username; "password" := password ]};
       rq_cookies := None; rq_headers := None |} in
  let res := prox_auth_init url username password w in
  server (sent w) rq = Some r ->
  json_loads (text r) = Some (JObj d) ->
  d !! "data" = Some (JObj dd) ->
  dd !! "ticket" = Some T ->
  dd !! "CSRFPreventionToken" = Some C ->
  sent (snd res) = sent w ++ [rq]
  /\ exists a,
       fst res = Returned a
       /\ auth_url a = url
       /\ auth_ticket a = {[ "PVEAuthCookie" := T ]}
       /\ auth_CSRF a = C
       /\ ticket (pyproxmox_init a) !! "PVEAuthCookie" = Some T
       /\ CSRF (pyproxmox_init a) = C.
Proof.
  intros rq res Hs Hj Hd Ht Hc. subst res.
  rewrite prox_auth_init_eq. cbv zeta.
  change (ticket_request url username password) with rq.
  rewrite Hs, Hj. simpl. rewrite Hd. simpl. rewrite Ht, Hc. simpl.
  split; [reflexivity|]. eexists. split; [reflexivity|]. simpl.
  repeat split.
Qed.

(** The constructor makes its one call whatever comes back, and prints
    nothing. *)
Lemma prox_auth_init_world (url username password : string) (w : world) :
  let res := prox_auth_init url username password w in
  sent (snd res) = sent w ++ [ticket_request url username password]
  /\ stdout (snd res) = stdout w.
Proof.
  rewrite prox_auth_init_eq. cbv zeta.
  repeat case_match; auto.
Qed.

(** C5, as the code has it.  A failed session establishment reaches the
    caller of the constructor as the exception that occurred, whatever
    its kind: the transport's own for a transport failure, the decoder's
    for a body that is not JSON, [TypeError] when the body or its [data]
    is not an object (a rejected login answers with a null [data]), and
    [KeyError] naming the first missing key when the object has no
    [data], [ticket] or [CSRFPreventionToken].  The constructor makes its
    one call, returns nothing and prints nothing. *)
Theorem auth_failure_propagates (url username password : string)
    (w : world) :
  let rq := ticket_request url username password in
  let res := prox_auth_init url username password w in
  stdout (snd res) = stdout w
  /\ sent (snd res) = sent w ++ [rq]
  /\ (server (sent w) rq = None -> fst res = Raised RequestException)
  /\ forall r,
       server (sent w) rq = Some r ->
       (json_loads (text r) = None -> fst res = Raised JSONDecodeError)
       /\ (forall v, json_loads (text r) = Some v ->
           (forall d, v <> JObj d) -> fst res = Raised TypeError)
       /\ forall d,
            json_loads (text r) = Some (JObj d) ->
            (d !! "data" = None -> fst res = Raised (KeyError "data"))
            /\ (forall x, d !! "data" = Some x ->
                (forall dd, x <> JObj dd) -> fst res = Raised TypeError)
            /\ forall dd,
                 d !! "data" = Some (JObj dd) ->
                 (dd !! "ticket" = None ->
                  fst res = Raised (KeyError "ticket"))
                 /\ (is_Some (dd !! "ticket") ->
                     dd !! "CSRFPreventionToken" = None ->
                     fst res = Raised (KeyError "CSRFPreventionToken")).
Proof.
  intros rq res.
  destruct (prox_auth_init_world url username password w) as (Hsent & Hout).
  split; [exact Hout|]. split; [exact Hsent|].
  subst res. rewrite prox_auth_init_eq. cbv zeta. fold rq.
  split; [intros ->; reflexivity|].
  intros r ->. cbv beta iota. split; [intros ->; reflexivity|]. split.
  - intros v -> Hv. destruct v; try reflexivity. by destruct (Hv d).
  - intros d ->. simpl. split; [intros ->; reflexivity|]. split.
    + intros x -> Hx. destruct x; try reflexivity. by destruct (Hx d0).
    + intros dd ->. simpl. split; [intros ->; reflexivity|].
      intros [t ->] ->. reflexivity.
Qed.

(** ** Responses and headers *)

(** C4, as the code has it.  When the answer to a dispatched request is
    not valid JSON, [connect] raises nothing: it prints a fixed line and
    the [repr] of the response, which shows the status and not the body,
    and returns [None].  The response stays on the instance as
    [self.response]; [self.returned_data] is not assigned. *)
Theorem malformed_response_returns_None (c o : string)
    (p : option (gmap string string)) (self : pyproxmox) (w : world)
    (rq : request) (r : Response) :
  let res := connect c o p (self, w) in
  sent (snd (snd res)) = sent w ++ [rq] ->
  server (sent w) rq = Some r ->
  json_loads (text r) = None ->
  fst res = Returned JNull
  /\ stdout (snd (snd res)) =
     stdout w ++ ["Error in trying to process JSON";
                  "<Response [" +:+ pretty (status_code r) +:+ "]>"]
  /\ response (fst (snd res)) = Some r
  /\ returned_data (fst (snd res)) = returned_data self.
Proof.
  intros res. subst res. rewrite connect_sent, connect_eq. cbv zeta.
  destruct (wire self c o p) as [rq'|]; simpl.
  - intros [= <-]%app_inv_head Hs Hj. rewrite Hs, decode_response_eq.
    simpl. rewrite Hj. auto.
  - intros H%app_inv_head. discriminate.
Qed.

(** C8, as the code has it.  A post, put or delete request carries
    exactly the three headers [Accept], [Content-Type] and
    [CSRFPreventionToken]; a get request is sent without a [headers]
    argument. *)
Theorem headers_by_verb (self : pyproxmox) (w : world) (c o : string)
    (p : option (gmap string string)) :
  In c verbs ->
  exists rq,
    sent (snd (snd (connect c o p (self, w)))) = sent w ++ [rq]
    /\ rq_headers rq =
       (if mutating c
        then Some {[ "CSRFPreventionToken" := py_str (CSRF self);
                     "Accept" := "application/json";
                     "Content-Type" := "application/x-www-form-urlencoded" ]}
        else None)
    /\ (mutating c = true ->
        header "Accept" rq = Some "application/json"
        /\ header "Content-Type" rq = Some "application/x-www-form-urlencoded"
        /\ header "CSRFPreventionToken" rq = Some (py_str (CSRF self)))
    /\ (c = "get" -> header "Accept" rq = None
                     /\ header "Content-Type" rq = None).
Proof.
  unfold verbs. simpl. intros [<-|[<-|[<-|[<-|[]]]]];
    eexists; rewrite connect_sent; (split; [reflexivity|]);
    (split; [reflexivity|]); split; try discriminate; auto.
Qed.

(** ** Endpoint wrappers *)

(** C7.  On a dispatcher built from credentials whose ticket is T,
    [getClusterStatus] makes one call, a GET of [cluster/status] on the
    host with T as the cookie and no headers, and returns what the body
    of the answer decodes to. *)
Theorem cluster_status_end_to_end (a : prox_auth) (T : json) (w : world)
    (r : Response) (v : json) :
  let rq :=
    {| rq_method := GET;
       rq_url := "https://" +:+ auth_url a +:+ ":8006/api2/json/cluster/status";
       rq_verify := false; rq_data := None;
       rq_cookies := Some {[ "PVEAuthCookie" := T ]};
       rq_headers := None |} in
  let res := getClusterStatus (pyproxmox_init a, w) in
  auth_ticket a = {[ "PVEAuthCookie" := T ]} ->
  server (sent w) rq = Some r ->
  json_loads (text r) = Some v ->
  sent (snd (snd res)) = sent w ++ [rq]
  /\ csrf_header rq = None
  /\ fst res = Returned v.
Proof.
  intros rq res Ht Hs Hj. subst res. unfold getClusterStatus.
  rewrite connect_sent, connect_eq. cbv zeta.
  assert (wire (pyproxmox_init a) "get" "cluster/status" None = Some rq)
    as -> by (unfold wire; simpl; rewrite Ht; reflexivity).
  rewrite Hs, decode_response_eq. simpl. rewrite Hj. auto.
Qed.

(** C9.  [migrateVirtualMachine] makes one POST with the form
    [{'target': str(target)}] to [nodes/{node}/qemu/{vmid}/status/start],
    the address that [startVirtualMachine] posts to;
    [migrateOpenvzContainer] makes one POST with the same form to
    [nodes/{node}/openvz/{vmid}/migrate]. *)
Theorem migrate_paths (node vmid target : json) (self : pyproxmox)
    (w : world) :
  let post (path : string) (data : option (gmap string string)) :=
    {| rq_method := POST;
       rq_url := "https://" +:+ url self +:+ ":8006/api2/json/" +:+ path;
       rq_verify := false; rq_data := data;
       rq_cookies := Some (ticket self);
       rq_headers :=
         Some {[ "CSRFPreventionToken" := py_str (CSRF self);
                 "Accept" := "application/json";
                 "Content-Type" := "application/x-www-form-urlencoded" ]} |} in
  let qemu_start :=
    "nodes/" +:+ py_str node +:+ "/qemu/" +:+ py_str vmid +:+ "/status/start" in
  let openvz_migrate :=
    "nodes/" +:+ py_str node +:+ "/openvz/" +:+ py_str vmid +:+ "/migrate" in
  sent (snd (snd (migrateVirtualMachine node vmid target (self, w)))) =
    sent w ++ [post qemu_start (Some {[ "target" := py_str target ]})]
  /\ sent (snd (snd (startVirtualMachine node vmid (self, w)))) =
    sent w ++ [post qemu_start None]
  /\ sent (snd (snd (migrateOpenvzContainer node vmid target (self, w)))) =
    sent w ++ [post openvz_migrate (Some {[ "target" := py_str target ]})].
Proof.
  unfold migrateVirtualMachine, startVirtualMachine, migrateOpenvzContainer.
  cbv zeta. rewrite !connect_sent. repeat split.
Qed.

(** * Further properties of the code *)

(** ** The dispatcher: answers, failures, and what it does not look at *)

(** X1.  When the answer to a dispatched request decodes, [connect]
    returns the decoded value whatever the status code is, keeps the
    response and the value on the instance, and prints nothing. *)
Theorem connect_returns_decoded_body (c o : string)
    (p : option (gmap string string)) (self : pyproxmox) (w : world)
    (rq : request) (r : Response) (v : json) :
  let res := connect c o p (self, w) in
  sent (snd (snd res)) = sent w ++ [rq] ->
  server (sent w) rq = Some r ->
  json_loads (text r) = Some v ->
  fst res = Returned v
  /\ response (fst (snd res)) = Some r
  /\ returned_data (fst (snd res)) = Some v
  /\ stdout (snd (snd res)) = stdout w.
Proof.
  intros res. subst res. rewrite connect_sent, connect_eq. cbv zeta.
  destruct (wire self c o p) as [rq'|]; simpl.
  - intros [= <-]%app_inv_head Hs Hj. rewrite Hs, decode_response_eq.
    simpl. rewrite Hj. auto.
  - intros H%app_inv_head. discriminate.
Qed.

(** X2.  When the transport fails, [connect] raises the transport's
    exception after the call was made.  [self.full_url] is the new
    address, [self.response] and [self.returned_data] are still those of
    the call before, and nothing is printed. *)
Theorem connect_transport_failure (c o : string)
    (p : option (gmap string string)) (self : pyproxmox) (w : world)
    (rq : request) :
  let res := connect c o p (self, w) in
  sent (snd (snd res)) = sent w ++ [rq] ->
  server (sent w) rq = None ->
  fst res = Raised RequestException
  /\ full_url (fst (snd res)) = Some (rq_url rq)
  /\ response (fst (snd res)) = response self
  /\ returned_data (fst (snd res)) = returned_data self
  /\ stdout (snd (snd res)) = stdout w.
Proof.
  intros res. subst res. rewrite connect_sent, connect_eq. cbv zeta.
  destruct (wire self c o p) as [rq'|] eqn:Hw; simpl.
  - intros [= <-]%app_inv_head Hs. rewrite Hs. simpl.
    repeat split. unfold wire in Hw.
    destruct (verb_method c) as [[]|]; inversion Hw; reflexivity.
  - intros H%app_inv_head. discriminate.
Qed.

(** X4.  With get, [post_data] is dropped: the call does what it does
    with no data at all. *)
Theorem get_ignores_post_data (o : string) (p : option (gmap string string))
    (s : pyproxmox * world) :
  connect "get" o p s = connect "get" o None s.
Proof. destruct s as [self w]. rewrite !connect_eq. reflexivity. Qed.

(** X5.  Certificate verification is off in every call: those that a
    sequence of dispatcher calls makes, and the one of the login. *)
Theorem verification_always_disabled (cs : list call) (self : pyproxmox)
    (w : world) (url username password : string) :
  (exists l,
     sent (snd (run_calls cs (self, w))) = sent w ++ l
     /\ Forall (fun rq => rq_verify rq = false) l)
  /\ exists l,
       sent (snd (prox_auth_init url username password w)) = sent w ++ l
       /\ Forall (fun rq => rq_verify rq = false) l.
Proof.
  split.
  - destruct (run_calls_invariant cs (self, w)) as (_ & ->). simpl.
    eexists. split; [reflexivity|].
    apply Forall_flat_map, Forall_forall. intros c _. rewrite issued_eq.
    unfold wire. destruct (verb_method (call_verb c)) as [[]|]; simpl;
      repeat constructor.
  - destruct (prox_auth_init_world url username password w) as (-> & _).
    eexists. split; [reflexivity|]. repeat constructor.
Qed.

(** ** Session establishment: when it succeeds and how else it fails *)

(** X6.  The constructor returns exactly when the server answered, the
    body decoded to an object, and its [data] is an object with both a
    [ticket] and a [CSRFPreventionToken]. *)
Theorem session_established_iff (url username password : string)
    (w : world) :
  (exists a, fst (prox_auth_init url username password w) = Returned a)
  <->
  exists r d dd T C,
    server (sent w) (ticket_request url username password) = Some r
    /\ json_loads (text r) = Some (JObj d)
    /\ d !! "data" = Some (JObj dd)
    /\ dd !! "ticket" = Some T
    /\ dd !! "CSRFPreventionToken" = Some C.
Proof.
  rewrite prox_auth_init_eq. cbv zeta. split.
  - intros (a & H).
    destruct (server _ _) as [r|] eqn:Hs; [|discriminate]. exists r.
    destruct (json_loads (text r)) as [v|]; [|discriminate].
    destruct v as [| | | | |d]; try discriminate. simpl in H.
    destruct (d !! "data") as [x|] eqn:Hd; [|discriminate].
    destruct x as [| | | | |dd]; try discriminate. simpl in H.
    destruct (dd !! "ticket") as [T|] eqn:HT; [|discriminate].
    destruct (dd !! "CSRFPreventionToken") as [C|] eqn:HC; [|discriminate].
    exists d, dd, T, C. auto.
  - intros (r & d & dd & T & C & -> & -> & Hd & HT & HC).
    simpl. rewrite Hd. simpl. rewrite HT, HC. eexists. reflexivity.
Qed.

(** X7.  A body that is not JSON makes the constructor raise the
    decoder's error; a body that is not an object, or whose [data] is not
    one (a rejected login answers with a null [data]), makes it raise
    [TypeError]. *)
Theorem auth_failure_on_unexpected_body (url username password : string)
    (w : world) (r : Response) :
  let res := prox_auth_init url username password w in
  server (sent w) (ticket_request url username password) = Some r ->
  (json_loads (text r) = None -> fst res = Raised JSONDecodeError)
  /\ (forall v, json_loads (text r) = Some v ->
      (forall d, v <> JObj d) -> fst res = Raised TypeError)
  /\ (forall d x, json_loads (text r) = Some (JObj d) ->
      d !! "data" = Some x ->
      (forall dd, x <> JObj dd) -> fst res = Raised TypeError).
Proof.
  intros res Hs. subst res. rewrite prox_auth_init_eq. cbv zeta.
  rewrite Hs. split; [intros ->; reflexivity|]. split.
  - intros v -> Hv. destruct v; try reflexivity. by destruct (Hv d).
  - intros d x -> Hd Hx. simpl. rewrite Hd.
    destruct x; try reflexivity. by destruct (Hx d0).
Qed.

(** ** Wrappers *)

Lemma connect_get_sent (path : string) (self : pyproxmox) (w : world) :
  sent (snd (snd (connect "get" path None (self, w)))) =
  sent w ++ [get_request self path].
Proof. rewrite connect_sent. reflexivity. Qed.

(** X8.  The arguments of a wrapper go into the path as they are.
    [getVirtualInfo] with the action [config], [status/current], [rrd] or
    [rrddata] is the wrapper of that name, and a machine id that ends in
    [/config] turns [getVirtualIndex] into [getVirtualConfig]. *)
Theorem wrapper_arguments_spliced_verbatim (node vmid : json) (v : string) :
  getVirtualInfo node vmid (JStr "config") = getVirtualConfig node vmid
  /\ getVirtualInfo node vmid (JStr "status/current") =
     getVirtualStatus node vmid
  /\ getVirtualInfo node vmid (JStr "rrd") = getVirtualRRD node vmid
  /\ getVirtualInfo node vmid (JStr "rrddata") = getVirtualRRDData node vmid
  /\ getVirtualIndex node (JStr (v +:+ "/config")) =
     getVirtualConfig node (JStr v).
Proof. repeat split. Qed.

(** X9.  [getVm] asks the node named [pve], whatever nodes the cluster
    has: it is [getNodeVirtualIndex] of that name, one GET of
    [nodes/pve/qemu] on the host of the session. *)
Theorem getVm_asks_node_pve (self : pyproxmox) (w : world) :
  getVm = getNodeVirtualIndex (JStr "pve")
  /\ sent (snd (snd (getVm (self, w)))) =
     sent w ++ [get_request self "nodes/pve/qemu"].
Proof. split; [reflexivity|]. apply connect_get_sent. Qed.

(** X10.  Reading the configuration of a snapshot is a GET, without the
    CSRF token and without a form, although the wrapper stands with the
    POST methods; rolling back to the snapshot is a POST with the token
    and no form. *)
Theorem snapshot_wrappers (node vmid snapname : json) (self : pyproxmox)
    (w : world) :
  let config :=
    "nodes/" +:+ py_str node +:+ "/qemu/" +:+ py_str vmid +:+ "/snapshot/"
    +:+ py_str snapname +:+ "/config" in
  let rollback :=
    "nodes/" +:+ py_str node +:+ "/qemu/" +:+ py_str vmid +:+ "/snapshot/"
    +:+ py_str snapname +:+ "/rollback" in
  sent (snd (snd (getSnapshotConfigVirtualMachine node vmid snapname
                    (self, w)))) =
    sent w ++ [get_request self config]
  /\ csrf_header (get_request self config) = None
  /\ rq_data (get_request self config) = None
  /\ sent (snd (snd (rollbackVirtualMachine node vmid snapname (self, w)))) =
    sent w ++ [csrf_request POST self rollback None].
Proof.
  cbv zeta. unfold getSnapshotConfigVirtualMachine, rollbackVirtualMachine.
  rewrite !connect_sent. repeat split.
Qed.

(** X11.  The wrappers that change or delete a resource call the
    address that the wrapper reading it calls: the options of a machine
    are put where its configuration is read, a machine and an interface
    are deleted where they are read, a machine is created where the
    machines of the node are listed.  The form of the caller goes out
    unchanged; the two deletions carry the token and no form; each
    reading wrapper makes its one GET without form or token. *)
Theorem write_wrappers_share_read_address (node vmid interface : json)
    (post_data : option (gmap string string)) (self : pyproxmox) (w : world) :
  let sent_by (m : method json) := sent (snd (snd (m (self, w)))) in
  let address (l : list request) := map rq_url l in
  let machines := "nodes/" +:+ py_str node +:+ "/qemu" in
  let machine := "nodes/" +:+ py_str node +:+ "/qemu/" +:+ py_str vmid in
  let config :=
    "nodes/" +:+ py_str node +:+ "/qemu/" +:+ py_str vmid +:+ "/config" in
  let device :=
    "nodes/" +:+ py_str node +:+ "/network/" +:+ py_str interface in
  sent_by (setVirtualMachineOptions node vmid post_data) =
    sent w ++ [csrf_request PUT self config post_data]
  /\ sent_by (getVirtualConfig node vmid) = sent w ++ [get_request self config]
  /\ address (sent_by (setVirtualMachineOptions node vmid post_data)) =
     address (sent_by (getVirtualConfig node vmid))
  /\ sent_by (createVirtualMachine node post_data) =
    sent w ++ [csrf_request POST self machines post_data]
  /\ sent_by (getNodeVirtualIndex node) =
    sent w ++ [get_request self machines]
  /\ address (sent_by (createVirtualMachine node post_data)) =
     address (sent_by (getNodeVirtualIndex node))
  /\ sent_by (deleteVirtualMachine node vmid) =
    sent w ++ [csrf_request DELETE self machine None]
  /\ sent_by (getVirtualIndex node vmid) = sent w ++ [get_request self machine]
  /\ address (sent_by (deleteVirtualMachine node vmid)) =
     address (sent_by (getVirtualIndex node vmid))
  /\ sent_by (deleteNodeInterface node interface) =
    sent w ++ [csrf_request DELETE self device None]
  /\ sent_by (getNodeInterface node interface) =
    sent w ++ [get_request self device]
  /\ address (sent_by (deleteNodeInterface node interface)) =
     address (sent_by (getNodeInterface node interface)).
Proof.
  cbv zeta.
  unfold setVirtualMachineOptions, getVirtualConfig, createVirtualMachine,
    getNodeVirtualIndex, deleteVirtualMachine, getVirtualIndex,
    deleteNodeInterface, getNodeInterface.
  rewrite !connect_sent, !map_app. repeat split.
Qed.

(** X12.  The three wrappers that set one value put it under a fixed
    field name after [str]: [search] for the DNS domain, [key] both for
    the subscription key of a node and for a key event of a machine. *)
Theorem single_field_forms (node vmid value : json) (self : pyproxmox)
    (w : world) :
  sent (snd (snd (setNodeDNSDomain node value (self, w)))) =
    sent w ++ [csrf_request PUT self ("nodes/" +:+ py_str node +:+ "/dns")
                 (Some {[ "search" := py_str value ]})]
  /\ sent (snd (snd (setNodeSubscriptionKey node value (self, w)))) =
    sent w ++ [csrf_request PUT self
                 ("nodes/" +:+ py_str node +:+ "/subscription")
                 (Some {[ "key" := py_str value ]})]
  /\ sent (snd (snd (sendKeyEventVirtualMachine node vmid value (self, w)))) =
    sent w ++ [csrf_request PUT self
                 ("nodes/" +:+ py_str node +:+ "/qemu/" +:+ py_str vmid
                  +:+ "/sendkey")
                 (Some {[ "key" := py_str value ]})].
Proof.
  unfold setNodeDNSDomain, setNodeSubscriptionKey, sendKeyEventVirtualMachine.
  cbv zeta. rewrite !connect_sent. repeat split.
Qed.

(** ** The functions of [clusters_lib] and [network_lib] *)

Lemma get_auth_loaded (w w1 : world) (prox : pyproxmox) :
  load_dumped_session w = (Returned prox, w1) ->
  get_auth load_dumped_session exn_str w = (Returned prox, w1).
Proof. unfold get_auth. intros ->. reflexivity. Qed.

Lemma get_auth_failed (w w1 : world) (e : exn) :
  load_dumped_session w = (Raised e, w1) -> is_Exception e = true ->
  get_auth load_dumped_session exn_str w =
  (Raised SystemExit, printed [exn_str e] w1).
Proof. unfold get_auth. intros -> ->. reflexivity. Qed.

Lemma get_auth_passed_through (w w1 : world) (e : exn) :
  load_dumped_session w = (Raised e, w1) -> is_Exception e = false ->
  get_auth load_dumped_session exn_str w = (Raised e, w1).
Proof. unfold get_auth. intros -> ->. reflexivity. Qed.

(** One get on a dispatcher that is dropped afterwards. *)
Lemma call_on_get (path : string) (prox : pyproxmox) (w : world) :
  call_on prox (connect "get" path None) w =
  let rq := get_request prox path in
  match server (sent w) rq with
  | None => (Raised RequestException, log_request rq w)
  | Some r =>
      match json_loads (text r) with
      | Some v => (Returned v, log_request rq w)
      | None =>
          (Returned JNull,
           printed ["Error in trying to process JSON"; Response_repr r]
             (log_request rq w))
      end
  end.
Proof.
  unfold call_on. rewrite connect_eq. cbv zeta.
  change (wire prox "get" path None) with (Some (get_request prox path)).
  cbv beta iota.
  destruct (server (sent w) (get_request prox path)) as [r|]; [|reflexivity].
  rewrite decode_response_eq. simpl.
  destruct (json_loads (text r)); reflexivity.
Qed.

(** Load the session, get [path], take [data] out of the answer. *)
Lemma fetch_data_eq (path : string) (w w1 : world) (prox : pyproxmox) :
  load_dumped_session w = (Returned prox, w1) ->
  (prox <~ get_auth load_dumped_session exn_str ;;
   answer <~ call_on prox (connect "get" path None) ;;
   of_outcome (getitem answer "data")) w =
  let rq := get_request prox path in
  match server (sent w1) rq with
  | None => (Raised RequestException, log_request rq w1)
  | Some r =>
      match json_loads (text r) with
      | Some v => (getitem v "data", log_request rq w1)
      | None =>
          (Raised TypeError,
           printed ["Error in trying to process JSON"; Response_repr r]
             (log_request rq w1))
      end
  end.
Proof.
  intros Hload. unfold bind at 1. rewrite (get_auth_loaded _ _ _ Hload).
  unfold bind. rewrite call_on_get. cbv zeta.
  destruct (server _ _) as [r|]; [|reflexivity].
  destruct (json_loads (text r)); reflexivity.
Qed.

Lemma list_cluster_eq (w w1 : world) (prox : pyproxmox) :
  load_dumped_session w = (Returned prox, w1) ->
  list_cluster w = call_on prox (connect "get" "cluster/status" None) w1.
Proof.
  intros Hload. unfold list_cluster, getClusterStatus.
  unfold bind at 1. rewrite (get_auth_loaded _ _ _ Hload).
  unfold bind, ret. by destruct (call_on _ _ _) as [[] ?].
Qed.

(** X13.  [list_cluster] hands the caller the whole decoded answer of
    one GET of [cluster/status], without taking [data] out of it; when
    the body is not JSON it returns [None] after the two lines that
    [connect] prints. *)
Theorem list_cluster_returns_envelope (w w1 : world) (prox : pyproxmox)
    (r : Response) :
  let rq := get_request prox "cluster/status" in
  load_dumped_session w = (Returned prox, w1) ->
  server (sent w1) rq = Some r ->
  (forall v, json_loads (text r) = Some v ->
   list_cluster w = (Returned v, log_request rq w1))
  /\ (json_loads (text r) = None ->
      list_cluster w =
      (Returned JNull,
       printed ["Error in trying to process JSON"; Response_repr r]
         (log_request rq w1))).
Proof.
  intros rq Hload Hs. rewrite !(list_cluster_eq _ _ _ Hload), call_on_get.
  cbv zeta. fold rq. rewrite Hs. cbv beta iota.
  split; [intros v ->; reflexivity | intros ->; reflexivity].
Qed.

(** X14.  [cluster_service] returns the [data] of the answer to one GET
    of [nodes/{node}/services], made with the cookie of the loaded
    session. *)
Theorem cluster_service_returns_data (node : json) (w w1 : world)
    (prox : pyproxmox) (r : Response) (d : gmap string json) (D : json) :
  let rq := get_request prox ("nodes/" +:+ py_str node +:+ "/services") in
  load_dumped_session w = (Returned prox, w1) ->
  server (sent w1) rq = Some r ->
  json_loads (text r) = Some (JObj d) ->
  d !! "data" = Some D ->
  cluster_service node w = (Returned D, log_request rq w1).
Proof.
  intros rq Hload Hs Hj Hd. unfold cluster_service, getNodeServiceList.
  rewrite (fetch_data_eq _ _ _ _ Hload). cbv zeta. fold rq.
  rewrite Hs. cbv beta iota. rewrite Hj. simpl. rewrite Hd. reflexivity.
Qed.

(** X15.  When the answer is not what [cluster_service] expects, the
    caller gets an exception of the subscript: [TypeError] for a body
    that is not JSON (after the two lines of [connect], which returned
    [None]) and for one that is not an object, [KeyError] for an object
    without [data]. *)
Theorem cluster_service_on_bad_answer (node : json) (w w1 : world)
    (prox : pyproxmox) (r : Response) :
  let rq := get_request prox ("nodes/" +:+ py_str node +:+ "/services") in
  load_dumped_session w = (Returned prox, w1) ->
  server (sent w1) rq = Some r ->
  (json_loads (text r) = None ->
   cluster_service node w =
   (Raised TypeError,
    printed ["Error in trying to process JSON"; Response_repr r]
      (log_request rq w1)))
  /\ (forall d, json_loads (text r) = Some (JObj d) -> d !! "data" = None ->
      cluster_service node w = (Raised (KeyError "data"), log_request rq w1))
  /\ (forall v, json_loads (text r) = Some v -> (forall d, v <> JObj d) ->
      cluster_service node w = (Raised TypeError, log_request rq w1)).
Proof.
  intros rq Hload Hs. unfold cluster_service, getNodeServiceList.
  rewrite (fetch_data_eq _ _ _ _ Hload). cbv zeta. fold rq. rewrite Hs.
  cbv beta iota. split; [intros ->; reflexivity|]. split.
  - intros d -> Hd. simpl. rewrite Hd. reflexivity.
  - intros v -> Hv. destruct v; try reflexivity. by destruct (Hv d).
Qed.

(** X16.  [get_interface] returns the [data] of one GET of
    [nodes/{node}/network], and [get_interface_details] that of one GET
    of [nodes/{node}/network/{interface}]. *)
Theorem network_lib_returns_data (node interface : json) (w w1 : world)
    (prox : pyproxmox) (r : Response) (d : gmap string json) (D : json) :
  let networks := get_request prox ("nodes/" +:+ py_str node +:+ "/network") in
  let details :=
    get_request prox
      ("nodes/" +:+ py_str node +:+ "/network/" +:+ py_str interface) in
  load_dumped_session w = (Returned prox, w1) ->
  json_loads (text r) = Some (JObj d) ->
  d !! "data" = Some D ->
  (server (sent w1) networks = Some r ->
   get_interface node w = (Returned D, log_request networks w1))
  /\ (server (sent w1) details = Some r ->
      get_interface_details node interface w =
      (Returned D, log_request details w1)).
Proof.
  intros networks details Hload Hj Hd.
  unfold get_interface, get_interface_details, getNodeNetworks,
    getNodeInterface.
  rewrite !(fetch_data_eq _ _ _ _ Hload). cbv zeta. fold networks details.
  split; intros ->; cbv beta iota; rewrite Hj; simpl; rewrite Hd;
    reflexivity.
Qed.

(** X17.  Both functions of [network_lib] raise [TypeError] when the
    body of the answer is not JSON or not an object, and [KeyError] when
    it is an object without [data]. *)
Theorem network_lib_on_bad_answer (node interface : json) (w w1 : world)
    (prox : pyproxmox) (r : Response) :
  let networks := get_request prox ("nodes/" +:+ py_str node +:+ "/network") in
  let details :=
    get_request prox
      ("nodes/" +:+ py_str node +:+ "/network/" +:+ py_str interface) in
  let bad (o : outcome json) :=
    match json_loads (text r) with
    | None => o = Raised TypeError
    | Some (JObj d) => d !! "data" = None -> o = Raised (KeyError "data")
    | Some _ => o = Raised TypeError
    end in
  load_dumped_session w = (Returned prox, w1) ->
  (server (sent w1) networks = Some r -> bad (fst (get_interface node w)))
  /\ (server (sent w1) details = Some r ->
      bad (fst (get_interface_details node interface w))).
Proof.
  intros networks details bad Hload. subst bad.
  unfold get_interface, get_interface_details, getNodeNetworks,
    getNodeInterface.
  rewrite !(fetch_data_eq _ _ _ _ Hload). cbv zeta. fold networks details.
  split; intros ->; cbv beta iota;
    destruct (json_loads (text r)) as [[| | | | |d]|];
    simpl; try reflexivity; intros ->; reflexivity.
Qed.

(** X18.  When loading the session raises an exception that is an
    instance of [Exception], each of the four functions prints it and
    ends the program with [SystemExit].  [SystemExit],
    [KeyboardInterrupt] and [GeneratorExit] are not caught: they leave
    the four functions as they are, with nothing printed.  Either way no
    call reaches the server. *)
Theorem library_exits_when_session_fails (node interface : json)
    (w w1 : world) (e : exn) :
  let all_end_as (o : outcome json * world) :=
    list_cluster w = o /\ cluster_service node w = o
    /\ get_interface node w = o
    /\ get_interface_details node interface w = o in
  load_dumped_session w = (Raised e, w1) ->
  (is_Exception e = true ->
   all_end_as (Raised SystemExit, printed [exn_str e] w1))
  /\ (is_Exception e = false -> all_end_as (Raised e, w1))
  /\ (e = SystemExit \/ e = KeyboardInterrupt \/ e = GeneratorExit <->
      is_Exception e = false).
Proof.
  intros all_end_as Hload. subst all_end_as. cbv beta.
  unfold list_cluster, cluster_service, get_interface, get_interface_details.
  unfold bind. split; [|split].
  - intros He. rewrite (get_auth_failed _ _ _ Hload He). repeat split.
  - intros He. rewrite (get_auth_passed_through _ _ _ Hload He).
    repeat split.
  - destruct e; simpl; split; try reflexivity; try discriminate; auto;
      intros [H|[H|H]]; discriminate H.
Qed.

(** X19.  The handler of [get_auth] covers the loading only.  A
    transport failure of the call that follows leaves each function as
    the exception of the transport, with nothing printed. *)
Theorem library_transport_failure_uncaught (node interface : json)
    (w w1 : world) (prox : pyproxmox) :
  let fails (m : M world json) (path : string) :=
    server (sent w1) (get_request prox path) = None ->
    m w = (Raised RequestException, log_request (get_request prox path) w1) in
  load_dumped_session w = (Returned prox, w1) ->
  fails list_cluster "cluster/status"
  /\ fails (cluster_service node) ("nodes/" +:+ py_str node +:+ "/services")
  /\ fails (get_interface node) ("nodes/" +:+ py_str node +:+ "/network")
  /\ fails (get_interface_details node interface)
       ("nodes/" +:+ py_str node +:+ "/network/" +:+ py_str interface).
Proof.
  intros fails Hload. subst fails. cbv beta.
  unfold list_cluster, cluster_service, get_interface, get_interface_details,
    getClusterStatus, getNodeServiceList, getNodeNetworks, getNodeInterface.
  rewrite !(fetch_data_eq _ _ _ _ Hload). cbv zeta.
  split; [|repeat split; intros ->; reflexivity].
  intros Hs. fold getClusterStatus. fold list_cluster.
  rewrite (list_cluster_eq _ _ _ Hload), call_on_get. cbv zeta.
  rewrite Hs. reflexivity.
Qed.

End Client.

(** * The theorems at work on the mock servers *)

Local Abbreviation mock_init :=
  (prox_auth_init Mock.server Mock.json_loads).
Local Abbreviation mock_connect :=
  (connect Mock.server Mock.json_loads Mock.container_repr).
Local Abbreviation mock_run :=
  (run_calls Mock.server Mock.json_loads Mock.container_repr).

Example mock_session_is_init : pyproxmox_init Mock.auth = Mock.session.
Proof. reflexivity. Qed.

Lemma csrf_header_iff_mutating_witness :
  let earlier :=
    [{| call_verb := "get"; call_path := "cluster/status"; call_body := None |}] in
  let s := mock_run earlier (pyproxmox_init Mock.auth, Mock.fresh) in
  In "delete" verbs
  /\ exists rq,
       sent (snd (snd (mock_connect "delete" "nodes/pve/qemu/100" None s))) =
       sent (snd s) ++ [rq]
       /\ rq_cookies rq = Some {[ "PVEAuthCookie" := JStr "T1" ]}
       /\ csrf_header rq = Some "C1".
Proof.
  intros earlier s.
  assert (In "delete" verbs) as Hin by (simpl; auto 6).
  split; [exact Hin|].
  destruct (csrf_header_iff_mutating Mock.server Mock.json_loads
              Mock.container_repr Mock.auth earlier Mock.fresh
              "delete" "nodes/pve/qemu/100" None Hin)
    as (rq & Hsent & Hcookie & _ & Htok).
  exists rq. split; [exact Hsent|]. split; [exact Hcookie|].
  apply Htok; reflexivity.
Defined.

Lemma url_exact_witness :
  In "put" verbs
  /\ exists rq,
       sent (snd (snd (mock_connect "put" "nodes/pve/qemu/100/config" None
                         (Mock.session, Mock.fresh)))) = [rq]
       /\ rq_url rq = "https://host:8006/api2/json/nodes/pve/qemu/100/config".
Proof.
  assert (In "put" verbs) as Hin by (simpl; auto 6).
  split; [exact Hin|].
  destruct (url_exact Mock.server Mock.json_loads Mock.container_repr
              Mock.session Mock.fresh "put" "nodes/pve/qemu/100/config"
              None Hin)
    as (rq & Hsent & Hurl & _).
  exists rq. split; [exact Hsent | exact Hurl].
Defined.

Lemma session_from_ticket_response_witness :
  exists a,
    fst (mock_init "host" "root@pam" "secret" Mock.fresh) = Returned a
    /\ auth_ticket a = {[ "PVEAuthCookie" := JStr "T1" ]}
    /\ auth_CSRF a = JStr "C1".
Proof.
  destruct (session_from_ticket_response Mock.server Mock.json_loads
              "host" "root@pam" "secret" Mock.fresh
              {| status_code := 200; text := Mock.auth_body |}
              {[ "data" := JObj {[ "ticket" := JStr "T1";
                                   "CSRFPreventionToken" := JStr "C1" ]} ]}
              {[ "ticket" := JStr "T1"; "CSRFPreventionToken" := JStr "C1" ]}
              (JStr "T1") (JStr "C1"))
    as (_ & a & Hres & _ & Ht & Hc & _);
    [reflexivity | reflexivity | reflexivity | reflexivity | reflexivity |].
  exists a. split; [exact Hres|]. split; [exact Ht | exact Hc].
Defined.

(** The code against C4: an HTML error page comes back from a get, and
    the caller is handed [None] instead of an error. *)
Lemma malformed_response_not_signalled :
  let res :=
    connect Mock.gateway Mock.json_loads Mock.container_repr
      "get" "cluster/status" None (Mock.session, Mock.fresh) in
  Mock.json_loads Mock.gateway_body = None
  /\ response (fst (snd res)) =
     Some {| status_code := 502; text := Mock.gateway_body |}
  /\ fst res = Returned JNull
  /\ forall e, fst res <> Raised e.
Proof. repeat split. intros e. discriminate. Qed.

Lemma malformed_response_returns_None_witness :
  let res :=
    connect Mock.gateway Mock.json_loads Mock.container_repr
      "post" "nodes/pve/qemu/100/status/stop" None (Mock.session, Mock.fresh) in
  fst res = Returned JNull
  /\ stdout (snd (snd res)) =
     ["Error in trying to process JSON"; "<Response [502]>"].
Proof.
  intros res.
  destruct (malformed_response_returns_None Mock.gateway Mock.json_loads
              Mock.container_repr "post" "nodes/pve/qemu/100/status/stop"
              None Mock.session Mock.fresh
              {| rq_method := POST;
                 rq_url :=
                   "https://host:8006/api2/json/nodes/pve/qemu/100/status/stop";
                 rq_verify := false; rq_data := None;
                 rq_cookies := Some {[ "PVEAuthCookie" := JStr "T1" ]};
                 rq_headers :=
                   Some {[ "CSRFPreventionToken" := "C1";
                           "Accept" := "application/json";
                           "Content-Type" :=
                             "application/x-www-form-urlencoded" ]} |}
              {| status_code := 502; text := Mock.gateway_body |})
    as (Hres & Hout & _); [reflexivity | reflexivity | reflexivity |].
  split; [exact Hres | exact Hout].
Defined.

(** The code against C5: two failed logins raise exceptions of two
    kinds, and the first is the kind that a failed dispatch raises too. *)
Lemma auth_failure_not_distinct :
  let down := prox_auth_init Mock.down Mock.json_loads "host" "root@pam" "pw" in
  let incomplete :=
    prox_auth_init Mock.incomplete Mock.json_loads "host" "root@pam" "pw" in
  let dispatch :=
    connect Mock.down Mock.json_loads Mock.container_repr
      "get" "cluster/status" None in
  fst (down Mock.fresh) = Raised RequestException
  /\ fst (incomplete Mock.fresh) = Raised (KeyError "CSRFPreventionToken")
  /\ fst (dispatch (Mock.session, Mock.fresh)) = Raised RequestException
  /\ ~ exists kind,
         fst (down Mock.fresh) = Raised kind
         /\ fst (incomplete Mock.fresh) = Raised kind.
Proof.
  repeat split. intros (kind & H1 & H2).
  vm_compute in H1, H2. congruence.
Qed.

Lemma auth_failure_propagates_witness :
  let login (server : list request -> request -> option Response) :=
    fst (prox_auth_init server Mock.json_loads "host" "root@pam" "pw"
           Mock.fresh) in
  login Mock.down = Raised RequestException
  /\ login Mock.gateway = Raised JSONDecodeError
  /\ login Mock.denying = Raised TypeError
  /\ login Mock.incomplete = Raised (KeyError "CSRFPreventionToken").
Proof.
  intros login. subst login. cbv beta. split; [|split; [|split]].
  - apply (auth_failure_propagates Mock.down Mock.json_loads
             "host" "root@pam" "pw" Mock.fresh). reflexivity.
  - destruct (auth_failure_propagates Mock.gateway Mock.json_loads
                "host" "root@pam" "pw" Mock.fresh) as (_ & _ & _ & H).
    destruct (H {| status_code := 502; text := Mock.gateway_body |})
      as (H' & _); [reflexivity|].
    apply H'. reflexivity.
  - destruct (auth_failure_propagates Mock.denying Mock.json_loads
                "host" "root@pam" "pw" Mock.fresh) as (_ & _ & _ & H).
    destruct (H {| status_code := 401; text := Mock.denied_body |})
      as (_ & _ & H'); [reflexivity|].
    destruct (H' {[ "data" := JNull ]}) as (_ & H'' & _); [reflexivity|].
    apply (H'' JNull); [reflexivity | intros dd; discriminate].
  - destruct (auth_failure_propagates Mock.incomplete Mock.json_loads
                "host" "root@pam" "pw" Mock.fresh) as (_ & _ & _ & H).
    destruct (H {| status_code := 200; text := Mock.incomplete_body |})
      as (_ & _ & H'); [reflexivity|].
    destruct (H' {[ "data" := JObj {[ "ticket" := JStr "T1" ]} ]})
      as (_ & _ & H''); [reflexivity|].
    apply (H'' {[ "ticket" := JStr "T1" ]});
      [reflexivity | eexists; reflexivity | reflexivity].
Defined.

(** A rejected password: [data] is [null], and subscripting it fails. *)
Example denied_login_raises_TypeError :
  prox_auth_init Mock.denying Mock.json_loads "host" "root@pam" "wrong"
    Mock.fresh =
  (Raised TypeError,
   log_request (ticket_request "host" "root@pam" "wrong") Mock.fresh).
Proof. reflexivity. Qed.

(** The scenario of the specification, end to end: log in on the mock
    server, build the dispatcher, ask for the cluster status. *)
Lemma cluster_status_end_to_end_witness :
  exists a w1,
    mock_init "host" "root@pam" "secret" Mock.fresh = (Returned a, w1)
    /\ let res :=
         getClusterStatus Mock.server Mock.json_loads Mock.container_repr
           (pyproxmox_init a, w1) in
       sent (snd (snd res)) =
       sent w1 ++
       [{| rq_method := GET;
           rq_url := "https://host:8006/api2/json/cluster/status";
           rq_verify := false; rq_data := None;
           rq_cookies := Some {[ "PVEAuthCookie" := JStr "T1" ]};
           rq_headers := None |}]
       /\ fst res = Returned Mock.status_json.
Proof.
  exists Mock.auth, (log_request (ticket_request "host" "root@pam" "secret")
                       Mock.fresh).
  split; [reflexivity|].
  destruct (cluster_status_end_to_end Mock.server Mock.json_loads
              Mock.container_repr Mock.auth (JStr "T1")
              (log_request (ticket_request "host" "root@pam" "secret")
                 Mock.fresh)
              {| status_code := 200; text := Mock.status_body |}
              Mock.status_json)
    as (Hsent & _ & Hres); [reflexivity | reflexivity | reflexivity |].
  split; [exact Hsent | exact Hres].
Defined.

(** The code against C8: the request of a get has no [Accept] and no
    [Content-Type] header; [connect] does not pass it any. *)
Lemma get_carries_no_headers :
  let res := mock_connect "get" "cluster/status" None
               (Mock.session, Mock.fresh) in
  map rq_method (sent (snd (snd res))) = [GET]
  /\ map rq_headers (sent (snd (snd res))) = [None]
  /\ map (header "Accept") (sent (snd (snd res))) = [None]
  /\ map (header "Content-Type") (sent (snd (snd res))) = [None].
Proof. repeat split. Qed.

Lemma headers_by_verb_witness :
  In "post" verbs
  /\ exists rq,
       sent (snd (snd (mock_connect "post" "nodes/pve/qemu/100/status/start"
                         None (Mock.session, Mock.fresh)))) = [rq]
       /\ header "Accept" rq = Some "application/json"
       /\ header "Content-Type" rq = Some "application/x-www-form-urlencoded"
       /\ header "CSRFPreventionToken" rq = Some "C1".
Proof.
  assert (In "post" verbs) as Hin by (simpl; auto 6).
  split; [exact Hin|].
  destruct (headers_by_verb Mock.server Mock.json_loads Mock.container_repr
              Mock.session Mock.fresh "post"
              "nodes/pve/qemu/100/status/start" None Hin)
    as (rq & Hsent & _ & Hmut & _).
  exists rq. split; [exact Hsent|]. apply Hmut. reflexivity.
Defined.

(** An upper-case verb is not in the table.  On a fresh dispatcher the
    call fails; after a get of the cluster status it returns that status
    again, whatever path it was given. *)
Lemma unknown_verb_replays_witness :
  ~ In "GET" verbs
  /\ fst (mock_connect "GET" "nodes/pve/status" None
            (Mock.session, Mock.fresh)) = Raised (AttributeError "response")
  /\ let s := snd (mock_connect "get" "cluster/status" None
                     (Mock.session, Mock.fresh)) in
     let res := mock_connect "GET" "nodes/pve/status" None s in
     fst res = Returned Mock.status_json
     /\ sent (snd (snd res)) = sent (snd s).
Proof.
  assert (~ In "GET" verbs) as Hout
    by (simpl; intros [H|[H|[H|[H|[]]]]]; discriminate H).
  split; [exact Hout|]. split.
  - apply (unknown_verb_replays Mock.server Mock.json_loads
             Mock.container_repr "GET" "nodes/pve/status" None
             Mock.session Mock.fresh Hout). reflexivity.
  - intros s res.
    destruct (unknown_verb_replays Mock.server Mock.json_loads
                Mock.container_repr "GET" "nodes/pve/status" None
                (fst s) (snd s) Hout) as (Hsent & _ & _ & Hprev).
    split; [|exact Hsent].
    apply (Hprev "get" "cluster/status" None (Mock.session, Mock.fresh)).
    reflexivity.
Defined.

(** Two calls in a row: the second request has the cookie and the token
    of the first, and the ticket address is not called. *)
Example two_calls_same_credentials :
  let cs :=
    [{| call_verb := "post"; call_path := "nodes/pve/qemu/100/status/start";
        call_body := None |};
     {| call_verb := "delete"; call_path := "nodes/pve/qemu/100";
        call_body := None |}] in
  let s := mock_run cs (Mock.session, Mock.fresh) in
  map rq_url (sent (snd s)) =
    ["https://host:8006/api2/json/nodes/pve/qemu/100/status/start";
     "https://host:8006/api2/json/nodes/pve/qemu/100"]
  /\ map rq_cookies (sent (snd s)) =
     [Some (ticket Mock.session); Some (ticket Mock.session)]
  /\ map csrf_header (sent (snd s)) = [Some "C1"; Some "C1"].
Proof. repeat split. Qed.

(** Migrating VM 100 of node [pve] to [pve2] posts to the start address. *)
Example migrate_posts_to_start :
  map rq_url
    (sent (snd (snd (migrateVirtualMachine Mock.server Mock.json_loads
                       Mock.container_repr (JStr "pve") (JNum 100)
                       (JStr "pve2") (Mock.session, Mock.fresh))))) =
  ["https://host:8006/api2/json/nodes/pve/qemu/100/status/start"].
Proof. reflexivity. Qed.

(** ** The command-line layer *)

(** [get_auth], not the client, is where a failure is printed and the
    program exits. *)
Lemma get_auth_prints_and_exits (load : M world pyproxmox)
    (exn_str : exn -> string) (w w' : world) (e : exn) :
  load w = (Raised e, w') ->
  is_Exception e = true ->
  get_auth load exn_str w = (Raised SystemExit, printed [exn_str e] w').
Proof. unfold get_auth. intros -> ->. reflexivity. Qed.

(** * Further properties at work on the mock servers *)

(** X3.  The status code of an answer is never consulted.  Against a
    server that gives the same bodies under another status, [connect]
    returns the same value, keeps the same [returned_data] and makes the
    same calls; the login ends the same way, with the same ticket and
    token when it succeeds. *)
Theorem status_code_never_consulted
    (server : list request -> request -> option Response)
    (json_loads : string -> option json) (container_repr : json -> string)
    (code : Z) (c o : string) (p : option (gmap string string))
    (self : pyproxmox) (w : world) (url username password : string) :
  let res := connect server json_loads container_repr c o p (self, w) in
  let res' :=
    connect (with_status code server) json_loads container_repr c o p
      (self, w) in
  let login := prox_auth_init server json_loads url username password w in
  let login' :=
    prox_auth_init (with_status code server) json_loads url username
      password w in
  fst res' = fst res
  /\ returned_data (fst (snd res')) = returned_data (fst (snd res))
  /\ sent (snd (snd res')) = sent (snd (snd res))
  /\ match fst login', fst login with
     | Returned a', Returned a =>
         auth_ticket a' = auth_ticket a /\ auth_CSRF a' = auth_CSRF a
     | Raised e', Raised e => e' = e
     | _, _ => False
     end.
Proof.
  cbv zeta. rewrite !connect_sent, !connect_eq, !prox_auth_init_eq.
  cbv zeta. unfold with_status. repeat split.
  - destruct (wire container_repr self c o p) as [rq|];
      [destruct (server (sent w) rq); [|reflexivity]|];
      rewrite !decode_response_eq; simpl;
      repeat case_match; simplify_eq; reflexivity.
  - destruct (wire container_repr self c o p) as [rq|];
      [destruct (server (sent w) rq); [|reflexivity]|];
      rewrite !decode_response_eq; simpl;
      repeat case_match; simplify_eq; reflexivity.
  - destruct (server (sent w) _) as [r|]; [|reflexivity]. simpl.
    destruct (json_loads (text r)) as [v|]; [|reflexivity].
    destruct (getitem v "data") as [d|]; [|reflexivity].
    destruct (getitem d "ticket"); [|reflexivity].
    destruct (getitem d "CSRFPreventionToken"); simpl; auto.
Qed.

Lemma connect_returns_decoded_body_witness :
  let res := mock_connect "get" "cluster/status" None
               (Mock.session, Mock.fresh) in
  fst res = Returned Mock.status_json
  /\ returned_data (fst (snd res)) = Some Mock.status_json
  /\ stdout (snd (snd res)) = [].
Proof.
  intros res.
  destruct (connect_returns_decoded_body Mock.server Mock.json_loads
              Mock.container_repr "get" "cluster/status" None
              Mock.session Mock.fresh
              (get_request Mock.session "cluster/status")
              {| status_code := 200; text := Mock.status_body |}
              Mock.status_json)
    as (Hres & _ & Hdata & Hout); [reflexivity | reflexivity | reflexivity |].
  split; [exact Hres|]. split; [exact Hdata | exact Hout].
Defined.

Lemma connect_transport_failure_witness :
  let res :=
    connect Mock.down Mock.json_loads Mock.container_repr
      "delete" "nodes/pve/qemu/100" None (Mock.session, Mock.fresh) in
  fst res = Raised RequestException
  /\ full_url (fst (snd res)) =
     Some "https://host:8006/api2/json/nodes/pve/qemu/100"
  /\ response (fst (snd res)) = None.
Proof.
  intros res.
  destruct (connect_transport_failure Mock.down Mock.json_loads
              Mock.container_repr "delete" "nodes/pve/qemu/100" None
              Mock.session Mock.fresh
              (csrf_request Mock.container_repr DELETE Mock.session
                 "nodes/pve/qemu/100" None))
    as (Hres & Hurl & Hresp & _); [reflexivity | reflexivity |].
  split; [exact Hres|]. split; [exact Hurl | exact Hresp].
Defined.

(** A rejected password, in general: [data] is null. *)
Lemma auth_failure_on_unexpected_body_witness :
  fst (prox_auth_init Mock.denying Mock.json_loads "host" "root@pam" "wrong"
         Mock.fresh) = Raised TypeError.
Proof.
  destruct (auth_failure_on_unexpected_body Mock.denying Mock.json_loads
              "host" "root@pam" "wrong" Mock.fresh
              {| status_code := 401; text := Mock.denied_body |})
    as (_ & _ & H); [reflexivity|].
  apply (H {[ "data" := JNull ]} JNull);
    [reflexivity | reflexivity | intros dd; discriminate].
Defined.

Example session_established_on_mock :
  exists a,
    fst (mock_init "host" "root@pam" "secret" Mock.fresh) = Returned a.
Proof.
  apply (session_established_iff Mock.server Mock.json_loads).
  exists {| status_code := 200; text := Mock.auth_body |},
    {[ "data" := JObj {[ "ticket" := JStr "T1";
                         "CSRFPreventionToken" := JStr "C1" ]} ]},
    {[ "ticket" := JStr "T1"; "CSRFPreventionToken" := JStr "C1" ]},
    (JStr "T1"), (JStr "C1").
  repeat split.
Qed.

(** An HTTP error with a JSON body comes back as data. *)
Example error_status_with_json_body_is_data :
  fst (connect (with_status 500 Mock.server) Mock.json_loads
         Mock.container_repr "get" "cluster/status" None
         (Mock.session, Mock.fresh)) = Returned Mock.status_json.
Proof. reflexivity. Qed.

(** ** The library functions on a loaded session *)

Local Abbreviation services_request :=
  (get_request Mock.session "nodes/pve/services").

Lemma list_cluster_returns_envelope_witness :
  list_cluster Mock.server Mock.json_loads Mock.container_repr
    (Mock.load_ok Mock.session) Mock.exn_str Mock.fresh =
  (Returned Mock.status_json,
   log_request (get_request Mock.session "cluster/status") Mock.fresh).
Proof.
  destruct (list_cluster_returns_envelope Mock.server Mock.json_loads
              Mock.container_repr (Mock.load_ok Mock.session) Mock.exn_str
              Mock.fresh Mock.fresh Mock.session
              {| status_code := 200; text := Mock.status_body |})
    as (H & _); [reflexivity | reflexivity |].
  apply H. reflexivity.
Defined.

Lemma cluster_service_returns_data_witness :
  cluster_service (Mock.answering Mock.status_body) Mock.json_loads
    Mock.container_repr (Mock.load_ok Mock.session) Mock.exn_str
    (JStr "pve") Mock.fresh =
  (Returned (JArr [JObj {[ "name" := JStr "pve"; "nodes" := JNum 1 ]}]),
   log_request services_request Mock.fresh).
Proof.
  apply (cluster_service_returns_data (Mock.answering Mock.status_body)
           Mock.json_loads Mock.container_repr (Mock.load_ok Mock.session)
           Mock.exn_str (JStr "pve") Mock.fresh Mock.fresh Mock.session
           {| status_code := 200; text := Mock.status_body |}
           {[ "data" :=
                JArr [JObj {[ "name" := JStr "pve"; "nodes" := JNum 1 ]}] ]});
    reflexivity.
Defined.

(** Behind the dead proxy [connect] returns [None], and the subscript
    of [cluster_service] fails on it. *)
Lemma cluster_service_on_bad_answer_witness :
  cluster_service Mock.gateway Mock.json_loads Mock.container_repr
    (Mock.load_ok Mock.session) Mock.exn_str (JStr "pve") Mock.fresh =
  (Raised TypeError,
   {| sent := [services_request];
      stdout := ["Error in trying to process JSON"; "<Response [502]>"] |}).
Proof.
  destruct (cluster_service_on_bad_answer Mock.gateway Mock.json_loads
              Mock.container_repr (Mock.load_ok Mock.session) Mock.exn_str
              (JStr "pve") Mock.fresh Mock.fresh Mock.session
              {| status_code := 502; text := Mock.gateway_body |})
    as (H & _); [reflexivity | reflexivity |].
  apply H. reflexivity.
Defined.

Lemma network_lib_returns_data_witness :
  fst (get_interface (Mock.answering Mock.status_body) Mock.json_loads
         Mock.container_repr (Mock.load_ok Mock.session) Mock.exn_str
         (JStr "pve") Mock.fresh) =
  Returned (JArr [JObj {[ "name" := JStr "pve"; "nodes" := JNum 1 ]}])
  /\ map rq_url
       (sent (snd (get_interface_details (Mock.answering Mock.status_body)
                     Mock.json_loads Mock.container_repr
                     (Mock.load_ok Mock.session) Mock.exn_str
                     (JStr "pve") (JStr "vmbr0") Mock.fresh))) =
     ["https://host:8006/api2/json/nodes/pve/network/vmbr0"].
Proof.
  destruct (network_lib_returns_data (Mock.answering Mock.status_body)
              Mock.json_loads Mock.container_repr (Mock.load_ok Mock.session)
              Mock.exn_str (JStr "pve") (JStr "vmbr0") Mock.fresh Mock.fresh
              Mock.session
              {| status_code := 200; text := Mock.status_body |}
              {[ "data" :=
                   JArr [JObj {[ "name" := JStr "pve"; "nodes" := JNum 1 ]}] ]}
              (JArr [JObj {[ "name" := JStr "pve"; "nodes" := JNum 1 ]}]))
    as (H1 & H2); [reflexivity | reflexivity | reflexivity |].
  split.
  - rewrite H1; reflexivity.
  - rewrite H2; reflexivity.
Defined.

(** The healthy mock answers an empty object for a path it does not
    know: the subscript finds no [data]. *)
Lemma network_lib_on_bad_answer_witness :
  fst (get_interface Mock.server Mock.json_loads Mock.container_repr
         (Mock.load_ok Mock.session) Mock.exn_str (JStr "pve") Mock.fresh) =
  Raised (KeyError "data").
Proof.
  destruct (network_lib_on_bad_answer Mock.server Mock.json_loads
              Mock.container_repr (Mock.load_ok Mock.session) Mock.exn_str
              (JStr "pve") (JStr "vmbr0") Mock.fresh Mock.fresh Mock.session
              {| status_code := 200; text := Mock.empty_body |})
    as (H & _); [reflexivity|].
  apply H; reflexivity.
Defined.

Lemma library_exits_when_session_fails_witness :
  cluster_service Mock.server Mock.json_loads Mock.container_repr
    Mock.load_fails Mock.exn_str (JStr "pve") Mock.fresh =
  (Raised SystemExit, {| sent := []; stdout := ["'PVEAuthCookie'"] |})
  /\ list_cluster Mock.server Mock.json_loads Mock.container_repr
       Mock.load_interrupted Mock.exn_str Mock.fresh =
     (Raised KeyboardInterrupt, Mock.fresh).
Proof.
  split.
  - destruct (library_exits_when_session_fails Mock.server Mock.json_loads
                Mock.container_repr Mock.load_fails Mock.exn_str
                (JStr "pve") (JStr "vmbr0") Mock.fresh Mock.fresh
                (KeyError "PVEAuthCookie"))
      as (H & _); [reflexivity|].
    destruct H as (_ & H & _); [reflexivity|]. exact H.
  - destruct (library_exits_when_session_fails Mock.server Mock.json_loads
                Mock.container_repr Mock.load_interrupted Mock.exn_str
                (JStr "pve") (JStr "vmbr0") Mock.fresh Mock.fresh
                KeyboardInterrupt)
      as (_ & H & _); [reflexivity|].
    destruct H as (H & _); [reflexivity|]. exact H.
Defined.

Lemma library_transport_failure_uncaught_witness :
  list_cluster Mock.down Mock.json_loads Mock.container_repr
    (Mock.load_ok Mock.session) Mock.exn_str Mock.fresh =
  (Raised RequestException,
   log_request (get_request Mock.session "cluster/status") Mock.fresh).
Proof.
  destruct (library_transport_failure_uncaught Mock.down Mock.json_loads
              Mock.container_repr (Mock.load_ok Mock.session) Mock.exn_str
              (JStr "pve") (JStr "vmbr0") Mock.fresh Mock.fresh Mock.session)
    as (H & _); [reflexivity|].
  apply H. reflexivity.
Defined.

(** VM ids may be given as numbers: the wrapper formats them. *)
Example delete_machine_100 :
  map rq_url
    (sent (snd (snd (deleteVirtualMachine Mock.server Mock.json_loads
                       Mock.container_repr (JStr "pve") (JNum 100)
                       (Mock.session, Mock.fresh))))) =
  ["https://host:8006/api2/json/nodes/pve/qemu/100"].
Proof. reflexivity. Qed.
